(** * nearlib: the [Account] layer of the NEAR client library

    A shallow embedding of [src/account.js].  The five collaborator calls of
    [nearClient] and the entropy source behind [KeyPair.fromRandomSeed] are
    the only effects of the file; an [async] method is embedded as a finite
    tree of such calls, and run against an arbitrary implementation of the
    collaborators that threads its own state.

    Conventions of the embedding:
    - a JS string is a [string]; its characters are the UTF-8 code units of
      the JS string, so that [Buffer.from(s)] is the list of its bytes;
    - a JS number holding a token amount or a nonce is a [Z];
    - a [Uint8Array]/[Buffer] is a [list byte];
    - a protobuf message is a record whose optional members are [option]s:
      [None] is a member that was never assigned. *)

From Stdlib Require Import ZArith NArith List Ascii String Strings.Byte Lia.
From stdpp Require Import base option gmap strings list fin_maps.

Local Open Scope string_scope.
Local Open Scope Z_scope.
Local Open Scope list_scope.

(** ** JavaScript odds and ends *)

(** [if (s)] on a string: the empty string is the only falsy one. *)
Definition truthy (s : string) : bool :=
  match s with
  | EmptyString => false
  | String _ _ => true
  end.

(** [Buffer.from(s)]: the UTF-8 bytes of [s]. *)
Definition Buffer_from (s : string) : list byte := list_byte_of_string s.

(** [new Uint8Array(buf)]: a copy of the same bytes. *)
Definition Uint8Array_from (b : list byte) : list byte := b.

(** ** Base58 ([bs58] and [KeyPair.encodeBufferInBs58]) *)

Module bs58.

Local Open Scope N_scope.

(** Modelled from the spec: the [bs58] package and the helper
    [KeyPair.encodeBufferInBs58] of [signing/key_pair.js] are not part of
    the sources at hand; the spec describes them as the "byte-buffer to
    base58 string" encoding "and inverse", over the alphabet that avoids
    visually ambiguous characters.  A buffer is read as a big-endian
    number in base 256 and written in base 58; every leading zero byte
    is kept as one leading ['1']. *)
Definition ALPHABET : string :=
  "123456789ABCDEFGHJKLMNPQRSTUVWXYZabcdefghijkmnopqrstuvwxyz".

Definition BASE : N := 58.

Fixpoint index_of (c : ascii) (l : list ascii) : option N :=
  match l with
  | [] => None
  | a :: l' => if Ascii.eqb a c then Some 0 else N.succ <$> index_of c l'
  end.

Definition digit_of_char (c : ascii) : option N :=
  index_of c (list_ascii_of_string ALPHABET).

Definition char_of_digit (d : N) : ascii :=
  nth (N.to_nat d) (list_ascii_of_string ALPHABET) "1"%char.

(** Digits of [n] in base [b], least significant first; [fuel] bounds the
    number of digits. *)
Fixpoint to_le (fuel : nat) (b n : N) : list N :=
  match fuel with
  | O => []
  | S fuel' =>
      if n =? 0 then [] else (n mod b) :: to_le fuel' b (n / b)
  end.

(** Most significant digit first, no leading zero; [0] has no digit.  The
    number of binary digits of [n] is fuel enough for any base above 1. *)
Definition to_digits (b n : N) : list N := rev (to_le (N.size_nat n) b n).

Definition of_digits (b : N) (ds : list N) : N :=
  fold_left (fun acc d => acc * b + d) ds 0.

(** The value of a digit list that has its least significant digit
    first. *)
Definition of_le (b : N) (ds : list N) : N :=
  fold_right (fun d acc => acc * b + d) 0 ds.

Fixpoint leading_zeros (ds : list N) : nat :=
  match ds with
  | 0 :: ds' => S (leading_zeros ds')
  | _ => O
  end.

(** Change of base that keeps the leading zero digits, one for one. *)
Definition convert (from to : N) (ds : list N) : list N :=
  repeat 0 (leading_zeros ds) ++ to_digits to (of_digits from ds).

Definition byte_of_digit (d : N) : byte :=
  match Byte.of_N d with
  | Some x => x
  | None => x00
  end.

Fixpoint digits_of_chars (cs : list ascii) : option (list N) :=
  match cs with
  | [] => Some []
  | c :: cs' =>
      match digit_of_char c, digits_of_chars cs' with
      | Some d, Some ds => Some (d :: ds)
      | _, _ => None
      end
  end.

Definition encode (source : list byte) : string :=
  string_of_list_ascii
    (map char_of_digit (convert 256 BASE (map Byte.to_N source))).

(** [None] stands for the [Error('Non-base58 character')] that the
    package throws. *)
Definition decode (s : string) : option (list byte) :=
  match digits_of_chars (list_ascii_of_string s) with
  | Some ds => Some (map byte_of_digit (convert BASE 256 ds))
  | None => None
  end.

(** A valid base58 string: every character is in the alphabet. *)
Definition in_alphabet (c : ascii) : bool :=
  existsb (fun a => Ascii.eqb a c) (list_ascii_of_string ALPHABET).

Definition valid (s : string) : bool :=
  forallb in_alphabet (list_ascii_of_string s).

End bs58.

(** ** Values and messages *)

Module KeyPair.

(** Modelled from the spec: [signing/key_pair.js] is not part of the
    sources at hand.  The spec's data model gives a key pair as its raw
    public and secret key bytes, [getPublicKey()] as the base58 string of
    the public key, and the encoding helper as the byte-buffer to base58
    conversion used for all key material. *)
Record t := { publicKey : list byte; secretKey : list byte }.

Definition getPublicKey (k : t) : string := bs58.encode (publicKey k).

Definition encodeBufferInBs58 (buffer : list byte) : string :=
  bs58.encode buffer.

End KeyPair.

(** The JS values that travel through this layer untouched. *)
Inductive JsVal :=
| JsUndefined
| JsNull
| JsBool (b : bool)
| JsNum (n : Z)
| JsStr (s : string)
| JsKeyPair (k : KeyPair.t).

(** A plain JS object: own properties by name. *)
Abbreviation JsObject := (gmap string JsVal).

(** [{ ...o1, ...o2 }]: the properties of [o2] are copied over those of
    [o1]. *)
Definition spread (o1 o2 : JsObject) : JsObject := o2 ∪ o1.

Module StringValue.
(** Modelled from the spec: [google.protobuf.StringValue] of [./protos],
    the wrapper of an optional string member. *)
Record t := { value : string }.
Definition create (value : string) : t := {| value := value |}.
End StringValue.

Module BytesValue.
(** Modelled from the spec: [google.protobuf.BytesValue] of [./protos],
    the wrapper of an optional byte-string member. *)
Record t := { value : list byte }.
Definition create (value : list byte) : t := {| value := value |}.
End BytesValue.

Module AccessKey.
(** Modelled from the spec: the [AccessKey] message of [./protos], with
    the four optional members of the spec's data model. *)
Record t := {
  contractId : option StringValue.t;
  methodName : option BytesValue.t;
  balanceOwner : option StringValue.t;
  amount : option Z
}.

(** [AccessKey.create({})] *)
Definition create : t :=
  {| contractId := None; methodName := None;
     balanceOwner := None; amount := None |}.

Definition set_contractId (v : StringValue.t) (k : t) : t :=
  {| contractId := Some v; methodName := methodName k;
     balanceOwner := balanceOwner k; amount := amount k |}.

Definition set_methodName (v : BytesValue.t) (k : t) : t :=
  {| contractId := contractId k; methodName := Some v;
     balanceOwner := balanceOwner k; amount := amount k |}.

Definition set_balanceOwner (v : StringValue.t) (k : t) : t :=
  {| contractId := contractId k; methodName := methodName k;
     balanceOwner := Some v; amount := amount k |}.

Definition set_amount (v : Z) (k : t) : t :=
  {| contractId := contractId k; methodName := methodName k;
     balanceOwner := balanceOwner k; amount := Some v |}.
End AccessKey.

Module CreateAccountTransaction.
(** Modelled from the spec: the [CreateAccountTransaction] message of
    [./protos]; [amount] is its only optional member. *)
Record t := {
  nonce : Z;
  originator : string;
  newAccountId : string;
  publicKey : list byte;
  amount : option Z
}.

(** [CreateAccountTransaction.create({nonce, originator, newAccountId,
    publicKey})] *)
Definition create (nonce : Z) (originator newAccountId : string)
    (publicKey : list byte) : t :=
  {| nonce := nonce; originator := originator;
     newAccountId := newAccountId; publicKey := publicKey;
     amount := None |}.

Definition set_amount (v : Z) (m : t) : t :=
  {| nonce := nonce m; originator := originator m;
     newAccountId := newAccountId m; publicKey := publicKey m;
     amount := Some v |}.
End CreateAccountTransaction.

Module AddKeyTransaction.
(** Modelled from the spec: the [AddKeyTransaction] message of
    [./protos]; a member given as [undefined] is not assigned. *)
Record t := {
  nonce : Z;
  originator : string;
  newKey : list byte;
  accessKey : option AccessKey.t
}.

Definition create (nonce : Z) (originator : string) (newKey : list byte)
    (accessKey : option AccessKey.t) : t :=
  {| nonce := nonce; originator := originator; newKey := newKey;
     accessKey := accessKey |}.
End AddKeyTransaction.

Module DeleteKeyTransaction.
(** Modelled from the spec: the [DeleteKeyTransaction] message of
    [./protos]. *)
Record t := {
  nonce : Z;
  originator : string;
  curKey : list byte
}.

Definition create (nonce : Z) (originator : string) (curKey : list byte)
    : t :=
  {| nonce := nonce; originator := originator; curKey := curKey |}.
End DeleteKeyTransaction.

(** What [signAndSubmitTransaction] is handed: one of the three messages. *)
Inductive Transaction :=
| TxCreateAccount (m : CreateAccountTransaction.t)
| TxAddKey (m : AddKeyTransaction.t)
| TxDeleteKey (m : DeleteKeyTransaction.t).

Definition tx_nonce (tx : Transaction) : Z :=
  match tx with
  | TxCreateAccount m => CreateAccountTransaction.nonce m
  | TxAddKey m => AddKeyTransaction.nonce m
  | TxDeleteKey m => DeleteKeyTransaction.nonce m
  end.

(** A parameter of a JSON-RPC request. *)
Inductive Json :=
| JString (s : string)
| JBool (b : bool).

Module Response.
(** The part of an [abci_query] answer that is read:
    [response.response.value]. *)
Record inner := { value : string }.
Record t := { response : inner }.
End Response.

Module StoredKey.
(** The second component of a decoded entry: [contract_id] and [amount]
    are read off it, whatever they hold. *)
Record t := { contract_id : JsVal; amount : JsVal }.
End StoredKey.

(** The decoded answer of [access_key/<accountId>]: an object from keys to
    two-element arrays [[publicKeyBytes, storedKey]], listed in the order
    [Object.keys] enumerates it. *)
Abbreviation DecodedResponse :=
  (list (string * (list byte * StoredKey.t))).

Definition Object_keys {V} (o : list (string * V)) : list string :=
  map fst o.

(** [o[key]] *)
Fixpoint Object_get {V} (key : string) (o : list (string * V)) : option V :=
  match o with
  | [] => None
  | (k, v) :: o' => if String.eqb k key then Some v else Object_get key o'
  end.

Module AuthorizedApp.
Record t := { contractId : JsVal; amount : JsVal; publicKey : string }.
End AuthorizedApp.

Module AccountDetails.
Record t := {
  authorizedApps : list AuthorizedApp.t;
  transactions : list JsVal
}.
End AccountDetails.

(** ** Asynchronous methods *)

(** The calls that leave this layer, indexed by what they answer with:
    the five methods of [nearClient] that [Account] uses, and
    [KeyPair.fromRandomSeed()], which draws on the host's entropy. *)
Inductive Call : Type -> Type :=
| GetNonce (accountId : string) : Call Z
| SignAndSubmitTransaction (signer : string) (tx : Transaction)
    : Call JsObject
| ViewAccount (accountId : string) : Call JsObject
| JsonRpcRequest (method : string) (params : list Json) : Call Response.t
| DecodeResponseValue (value : string) : Call DecodedResponse
| FromRandomSeed : Call KeyPair.t.

(** The body of an [async] method: it returns, throws an [Error] of its
    own, makes a call and goes on with the answer, or runs a block under
    [try { body } catch { handler }] and goes on with what the block, or
    else the handler, ends in.  No method of [account.js] has a [try]; the
    construct is here so that retrying, recovering from and replacing an
    error are things a body could do. *)
Inductive Async (A : Type) : Type :=
| Return (a : A)
| Throw (message : string)
| Await {X : Type} (c : Call X) (k : X -> Async A)
| TryCatch {X : Type} (body handler : Async X) (k : X -> Async A).

Arguments Return {A} a.
Arguments Throw {A} message.
Arguments Await {A X} c k.
Arguments TryCatch {A X} body handler k.

Fixpoint bind {A B : Type} (p : Async A) (f : A -> Async B) : Async B :=
  match p with
  | Return a => f a
  | Throw m => Throw m
  | Await c k => Await c (fun x => bind (k x) f)
  | TryCatch body handler k =>
      TryCatch body handler (fun x => bind (k x) f)
  end.

(** A body with no [try] in it. *)
Fixpoint handler_free {A : Type} (p : Async A) : Prop :=
  match p with
  | Return _ | Throw _ => True
  | Await _ k => forall x, handler_free (k x)
  | TryCatch _ _ _ => False
  end.

#[export] Instance Async_ret : MRet Async := fun A a => Return a.
#[export] Instance Async_bind : MBind Async := fun A B f p => bind p f.

(** [await nearClient.m(...)] *)
Definition await {X : Type} (c : Call X) : Async X := Await c Return.

(** [bs58.decode(s)], which throws on a character outside the alphabet. *)
Definition bs58_decode (s : string) : Async (list byte) :=
  match bs58.decode s with
  | Some b => Return b
  | None => Throw "Non-base58 character"
  end.

(** [keys.forEach(callback)], the callback updating a captured variable. *)
Fixpoint forEach {K St : Type} (keys : list K)
    (callback : K -> St -> Async St) (st : St) : Async St :=
  match keys with
  | [] => Return st
  | key :: keys' => st' ← callback key st; forEach keys' callback st'
  end.

(** ** The collaborators *)

Module nearClient.

(** An implementation of the collaborators over a state [W] of its own
    (the ledger, the network, the entropy pool).  A call answers with a
    value or rejects with some [E]; whatever else happens out there while
    the method is suspended on the call is part of the call's effect on
    [W].  [fromRandomSeed] is [KeyPair.fromRandomSeed], which is not a
    method of [nearClient] but draws on the same outside world. *)
Record t (W E : Type) := {
  getNonce : string -> W -> W * (E + Z);
  signAndSubmitTransaction : string -> Transaction -> W -> W * (E + JsObject);
  viewAccount : string -> W -> W * (E + JsObject);
  jsonRpcRequest : string -> list Json -> W -> W * (E + Response.t);
  decodeResponseValue : string -> W -> W * (E + DecodedResponse);
  fromRandomSeed : W -> W * KeyPair.t
}.

Arguments getNonce {W E} _ _ _.
Arguments signAndSubmitTransaction {W E} _ _ _ _.
Arguments viewAccount {W E} _ _ _.
Arguments jsonRpcRequest {W E} _ _ _ _.
Arguments decodeResponseValue {W E} _ _ _.
Arguments fromRandomSeed {W E} _ _.

End nearClient.

Section Run.

Context {W E : Type}.

(** Why a method's promise was rejected. *)
Inductive reason :=
| Error (message : string)   (* an [Error] thrown in this layer *)
| Raised (e : E).            (* what a collaborator rejected with *)

(** One call, as seen from outside: its arguments and its answer. *)
Inductive Event :=
| EvGetNonce (accountId : string) (r : E + Z)
| EvSubmit (signer : string) (tx : Transaction) (r : E + JsObject)
| EvViewAccount (accountId : string) (r : E + JsObject)
| EvJsonRpc (method : string) (params : list Json) (r : E + Response.t)
| EvDecode (value : string) (r : E + DecodedResponse)
| EvRandomKey (k : KeyPair.t).

(** What a call was rejected with, if it was. *)
Definition failure (ev : Event) : option E :=
  match ev with
  | EvGetNonce _ (inl e) | EvSubmit _ _ (inl e) | EvViewAccount _ (inl e)
  | EvJsonRpc _ _ (inl e) | EvDecode _ (inl e) => Some e
  | _ => None
  end.

(** How a call's answer settles the promise that returns it. *)
Definition settle {A : Type} (r : E + A) : reason + A :=
  match r with
  | inl e => inl (Raised e)
  | inr a => inr a
  end.

Variable client : nearClient.t W E.

Definition handle {X : Type} (c : Call X) (w : W) : W * (E + X) :=
  match c in Call X return W * (E + X) with
  | GetNonce a => nearClient.getNonce client a w
  | SignAndSubmitTransaction s tx =>
      nearClient.signAndSubmitTransaction client s tx w
  | ViewAccount a => nearClient.viewAccount client a w
  | JsonRpcRequest m ps => nearClient.jsonRpcRequest client m ps w
  | DecodeResponseValue v => nearClient.decodeResponseValue client v w
  | FromRandomSeed =>
      let (w', k) := nearClient.fromRandomSeed client w in (w', inr k)
  end.

Definition observe {X : Type} (c : Call X) : E + X -> option Event :=
  match c in Call X return E + X -> option Event with
  | GetNonce a => fun r => Some (EvGetNonce a r)
  | SignAndSubmitTransaction s tx => fun r => Some (EvSubmit s tx r)
  | ViewAccount a => fun r => Some (EvViewAccount a r)
  | JsonRpcRequest m ps => fun r => Some (EvJsonRpc m ps r)
  | DecodeResponseValue v => fun r => Some (EvDecode v r)
  | FromRandomSeed =>
      fun r => match r with inr k => Some (EvRandomKey k) | inl _ => None end
  end.

(** Running a method from state [w]: the calls made, in order, the state
    left behind, and how the promise settled.  A rejected call is
    rethrown at its [await]; only an enclosing [try] catches it, and then
    the handler runs from the state the block left. *)
Fixpoint run {A : Type} (p : Async A) (w : W)
    : list Event * W * (reason + A) :=
  match p with
  | Return a => ([], w, inr a)
  | Throw m => ([], w, inl (Error m))
  | Await c k =>
      let (w1, r) := handle c w in
      let ev := option_list (observe c r) in
      match r with
      | inl e => (ev, w1, inl (Raised e))
      | inr x =>
          let '(evs, w2, o) := run (k x) w1 in (ev ++ evs, w2, o)
      end
  | TryCatch body handler k =>
      let '(evs1, w1, o1) := run body w in
      match o1 with
      | inr x =>
          let '(evs, w2, o) := run (k x) w1 in (evs1 ++ evs, w2, o)
      | inl _ =>
          let '(evs2, w2, o2) := run handler w1 in
          match o2 with
          | inr x =>
              let '(evs, w3, o) := run (k x) w2 in
              (evs1 ++ evs2 ++ evs, w3, o)
          | inl e => (evs1 ++ evs2, w2, inl e)
          end
      end
  end.

Definition trace {A} (p : Async A) (w : W) : list Event := (run p w).1.1.
Definition outcome {A} (p : Async A) (w : W) : reason + A := (run p w).2.
Definition final {A} (p : Async A) (w : W) : W := (run p w).1.2.

(** The payloads handed to [signAndSubmitTransaction], with their
    signer. *)
Definition submitted (evs : list Event) : list (string * Transaction) :=
  omap (fun ev => match ev with
                  | EvSubmit s tx _ => Some (s, tx)
                  | _ => None
                  end) evs.

End Run.

Arguments reason E : clear implicits.
Arguments Event E : clear implicits.

(** ** [class Account] *)

Module Account.

(** A method that ends in [return p] for a promise [p] settles the way [p]
    does, as with [return await p]; both are an [await] here. *)

(** [async createAccount(newAccountId, publicKey, amount, originator)] *)
Definition createAccount (newAccountId publicKey : string) (amount : Z)
    (originator : string) : Async JsObject :=
  nonce ← await (GetNonce originator);
  publicKey ← bs58_decode publicKey;
  let createAccount :=
    CreateAccountTransaction.create nonce originator newAccountId publicKey in
  (* Integers with value of 0 must be omitted *)
  let createAccount :=
    if negb (amount =? 0)
    then CreateAccountTransaction.set_amount amount createAccount
    else createAccount in
  await (SignAndSubmitTransaction originator (TxCreateAccount createAccount)).

(** [async addAccessKey(ownersAccountId, newPublicKey, contractId,
    methodName, fundingOwner, fundingAmount)] *)
Definition addAccessKey (ownersAccountId newPublicKey contractId
    methodName fundingOwner : string) (fundingAmount : Z)
    : Async JsObject :=
  nonce ← await (GetNonce ownersAccountId);
  newPublicKey ← bs58_decode newPublicKey;
  let accessKey :=
    if truthy contractId then
      let accessKey := AccessKey.create in
      let accessKey :=
        AccessKey.set_contractId (StringValue.create contractId) accessKey in
      let accessKey :=
        if truthy methodName
        then AccessKey.set_methodName
               (BytesValue.create (Uint8Array_from (Buffer_from methodName)))
               accessKey
        else accessKey in
      let accessKey :=
        if truthy fundingOwner
        then AccessKey.set_balanceOwner (StringValue.create fundingOwner)
               accessKey
        else accessKey in
      let accessKey :=
        if 0 <? fundingAmount
        then AccessKey.set_amount fundingAmount accessKey
        else accessKey in
      Some accessKey
    else None in
  let addKey :=
    AddKeyTransaction.create nonce ownersAccountId newPublicKey accessKey in
  await (SignAndSubmitTransaction ownersAccountId (TxAddKey addKey)).

(** [async removeAccessKey(ownersAccountId, publicKey)] *)
Definition removeAccessKey (ownersAccountId publicKey : string)
    : Async JsObject :=
  nonce ← await (GetNonce ownersAccountId);
  decodedKey ← bs58_decode publicKey;
  await (SignAndSubmitTransaction ownersAccountId
           (TxDeleteKey
              (DeleteKeyTransaction.create nonce ownersAccountId decodedKey))).

(** [async createAccountWithRandomKey(newAccountId, amount,
    originatorAccountId)]; the result is
    [{ key: keyWithRandomSeed, ...createAccountResult }]. *)
Definition createAccountWithRandomKey (newAccountId : string) (amount : Z)
    (originatorAccountId : string) : Async JsObject :=
  keyWithRandomSeed ← await FromRandomSeed;
  createAccountResult ←
    createAccount newAccountId (KeyPair.getPublicKey keyWithRandomSeed)
      amount originatorAccountId;
  Return (spread {["key" := JsKeyPair keyWithRandomSeed]}
            createAccountResult).

(** [async viewAccount(accountId)] *)
Definition viewAccount (accountId : string) : Async JsObject :=
  await (ViewAccount accountId).

(** The record pushed for [key] by the callback of [getAccountDetails]. *)
Definition authorizedApp (entry : list byte * StoredKey.t)
    : AuthorizedApp.t :=
  {| AuthorizedApp.contractId := StoredKey.contract_id entry.2;
     AuthorizedApp.amount := StoredKey.amount entry.2;
     AuthorizedApp.publicKey := KeyPair.encodeBufferInBs58 entry.1 |}.

(** [async getAccountDetails(accountId)].  [decodeResponseValue] is called
    without [await]; an exception of it leaves the method the same way.
    Reading [decodedResponse[key][1]] off a missing entry is the
    [TypeError] of the last branch. *)
Definition getAccountDetails (accountId : string)
    : Async AccountDetails.t :=
  response ← await (JsonRpcRequest "abci_query"
                [JString ("access_key/" +:+ accountId); JString "";
                 JString "0"; JBool false]);
  decodedResponse ← await (DecodeResponseValue
                       (Response.value (Response.response response)));
  authorizedApps ←
    forEach (Object_keys decodedResponse)
      (fun key authorizedApps =>
         match Object_get key decodedResponse with
         | Some entry => Return (authorizedApps ++ [authorizedApp entry])
         | None => Throw "TypeError: Cannot read property '1' of undefined"
         end)
      [];
  Return {| AccountDetails.authorizedApps := authorizedApps;
            AccountDetails.transactions := [] |}.

(** The operations of the class that go through [nearClient] only. *)
Inductive operation : forall {A : Type}, Async A -> Prop :=
| op_createAccount a pk amount o :
    operation (createAccount a pk amount o)
| op_addAccessKey o pk c m fo fa :
    operation (addAccessKey o pk c m fo fa)
| op_removeAccessKey o pk :
    operation (removeAccessKey o pk)
| op_viewAccount a :
    operation (viewAccount a)
| op_getAccountDetails a :
    operation (getAccountDetails a).

(** The three operations that change the ledger, with the account whose
    nonce they use. *)
Inductive mutation : string -> Async JsObject -> Prop :=
| mut_createAccount a pk amount o :
    mutation o (createAccount a pk amount o)
| mut_addAccessKey o pk c m fo fa :
    mutation o (addAccessKey o pk c m fo fa)
| mut_removeAccessKey o pk :
    mutation o (removeAccessKey o pk).

End Account.

(** ** Reading messages and traces *)

(** The account a message names as its originator. *)
Definition tx_originator (tx : Transaction) : string :=
  match tx with
  | TxCreateAccount m => CreateAccountTransaction.originator m
  | TxAddKey m => AddKeyTransaction.originator m
  | TxDeleteKey m => DeleteKeyTransaction.originator m
  end.

(** The key bytes a message carries: [publicKey], [newKey] or [curKey]. *)
Definition tx_key (tx : Transaction) : list byte :=
  match tx with
  | TxCreateAccount m => CreateAccountTransaction.publicKey m
  | TxAddKey m => AddKeyTransaction.newKey m
  | TxDeleteKey m => DeleteKeyTransaction.curKey m
  end.

(** The [amount] members that are present in a message. *)
Definition tx_amounts (tx : Transaction) : list Z :=
  match tx with
  | TxCreateAccount m => option_list (CreateAccountTransaction.amount m)
  | TxAddKey m =>
      match AddKeyTransaction.accessKey m with
      | Some k => option_list (AccessKey.amount k)
      | None => []
      end
  | TxDeleteKey _ => []
  end.

(** The ledger-changing methods again, with the account whose nonce they
    use and the base58 key they are given. *)
Inductive keyed_mutation : string -> string -> Async JsObject -> Prop :=
| keyed_createAccount a pk amount o :
    keyed_mutation o pk (Account.createAccount a pk amount o)
| keyed_addAccessKey o pk c m fo fa :
    keyed_mutation o pk (Account.addAccessKey o pk c m fo fa)
| keyed_removeAccessKey o pk :
    keyed_mutation o pk (Account.removeAccessKey o pk).

(** The calls that only read: [viewAccount], [jsonRpcRequest] and
    [decodeResponseValue]. *)
Definition is_query {E : Type} (ev : Event E) : bool :=
  match ev with
  | EvViewAccount _ _ | EvJsonRpc _ _ _ | EvDecode _ _ => true
  | _ => false
  end.

(** ** A ledger to run against *)

Module Devnet.

(** A small in-memory node: one nonce per known account, bumped by every
    accepted transaction; [answer] is what a submission is answered
    with, [stored] what the key query decodes to. *)
Definition keyWithRandomSeed : KeyPair.t :=
  {| KeyPair.publicKey := [x01; x02; x03]; KeyPair.secretKey := [x09] |}.

Definition client (answer : JsObject) (stored : DecodedResponse)
    : nearClient.t (gmap string Z) string :=
  {| nearClient.getNonce a w :=
       match w !! a with
       | Some n => (w, inr n)
       | None => (w, inl "account does not exist")
       end;
     nearClient.signAndSubmitTransaction s tx w :=
       match w !! s with
       | Some n =>
           if tx_nonce tx =? n then (<[s := n + 1]> w, inr answer)
           else (w, inl "nonce conflict")
       | None => (w, inl "account does not exist")
       end;
     nearClient.viewAccount a w :=
       match w !! a with
       | Some n => (w, inr {["account_id" := JsStr a; "nonce" := JsNum n]})
       | None => (w, inl "account does not exist")
       end;
     nearClient.jsonRpcRequest m ps w :=
       (w, inr {| Response.response := {| Response.value := "e30=" |} |});
     nearClient.decodeResponseValue v w := (w, inr stored);
     nearClient.fromRandomSeed w := (w, keyWithRandomSeed) |}.

Definition genesis : gmap string Z := {["alice" := 7]}.

Definition completed : JsObject := {["status" := JsStr "Completed"]}.

Definition stored : DecodedResponse :=
  [("0", ([x01; x02; x03],
          {| StoredKey.contract_id := JsStr "contractX";
             StoredKey.amount := JsNum 10 |}));
   ("1", ([x00; x61],
          {| StoredKey.contract_id := JsNull;
             StoredKey.amount := JsNum 0 |}))].

(** A submission answer that has a [key] member of its own. *)
Definition keyed : JsObject :=
  {["status" := JsStr "Completed"; "key" := JsStr "ed25519"]}.

(** The node used below: submissions are answered with [completed]. *)
Definition node : nearClient.t (gmap string Z) string :=
  client completed stored.

(** A node that answers submissions with [keyed]. *)
Definition keyedNode : nearClient.t (gmap string Z) string :=
  client keyed stored.

(** The same node behind a network that drops every submission. *)
Definition congested : nearClient.t (gmap string Z) string :=
  {| nearClient.getNonce := nearClient.getNonce node;
     nearClient.signAndSubmitTransaction s tx w :=
       (w, inl "request timed out");
     nearClient.viewAccount := nearClient.viewAccount node;
     nearClient.jsonRpcRequest := nearClient.jsonRpcRequest node;
     nearClient.decodeResponseValue := nearClient.decodeResponseValue node;
     nearClient.fromRandomSeed := nearClient.fromRandomSeed node |}.

(** The CreateAccount message for [bob], paid for by [alice] at nonce 7. *)
Definition bobTx (amount : option Z) : Transaction :=
  TxCreateAccount
    {| CreateAccountTransaction.nonce := 7;
       CreateAccountTransaction.originator := "alice";
       CreateAccountTransaction.newAccountId := "bob";
       CreateAccountTransaction.publicKey := [x01; x02; x03];
       CreateAccountTransaction.amount := amount |}.

(** The AddKey message of [alice] at nonce 7. *)
Definition appTx (accessKey : option AccessKey.t) : Transaction :=
  TxAddKey
    {| AddKeyTransaction.nonce := 7;
       AddKeyTransaction.originator := "alice";
       AddKeyTransaction.newKey := [x01; x02; x03];
       AddKeyTransaction.accessKey := accessKey |}.

(** The access key of [addAccessKey(alice, key, "contractX", "", "", 10)]. *)
Definition contractKey : AccessKey.t :=
  {| AccessKey.contractId := Some (StringValue.create "contractX");
     AccessKey.methodName := None;
     AccessKey.balanceOwner := None;
     AccessKey.amount := Some 10 |}.

(** The access key of
    [addAccessKey(alice, key, "contractX", "pay", "app", 10)]. *)
Definition payKey : AccessKey.t :=
  {| AccessKey.contractId := Some (StringValue.create "contractX");
     AccessKey.methodName := Some (BytesValue.create [x70; x61; x79]);
     AccessKey.balanceOwner := Some (StringValue.create "app");
     AccessKey.amount := Some 10 |}.

(** What [getAccountDetails] makes of [stored]. *)
Definition details : AccountDetails.t :=
  {| AccountDetails.authorizedApps :=
       [{| AuthorizedApp.contractId := JsStr "contractX";
           AuthorizedApp.amount := JsNum 10;
           AuthorizedApp.publicKey := "Ldp" |};
        {| AuthorizedApp.contractId := JsNull;
           AuthorizedApp.amount := JsNum 0;
           AuthorizedApp.publicKey := "12g" |}];
     AccountDetails.transactions := [] |}.

End Devnet.

Module Scenario.

(** The message and the record of two calls on [Devnet.node]:
    [addAccessKey(alice, key, "contractX", "pay", "app", 10)] and the first
    app that [getAccountDetails] lists. *)
Definition payAddKey : AddKeyTransaction.t :=
  {| AddKeyTransaction.nonce := 7;
     AddKeyTransaction.originator := "alice";
     AddKeyTransaction.newKey := [x01; x02; x03];
     AddKeyTransaction.accessKey := Some Devnet.payKey |}.

Definition contractApp : AuthorizedApp.t :=
  {| AuthorizedApp.contractId := JsStr "contractX";
     AuthorizedApp.amount := JsNum 10;
     AuthorizedApp.publicKey := "Ldp" |}.

(** Not a method of the class: what [viewAccount] would be with a
    fallback, [try { return await ... } catch { return {} }].  It is here
    to be set against the five operations, none of which does this. *)
Definition viewAccount_with_fallback (accountId : string) : Async JsObject :=
  TryCatch (await (ViewAccount accountId)) (Return ∅) Return.

End Scenario.

(** * Properties *)

(** ** JavaScript odds and ends *)

Lemma truthy_true_iff (s : string) : truthy s = true <-> s <> "".
Proof. destruct s; simpl; split; intros; congruence. Qed.

Lemma truthy_false_iff (s : string) : truthy s = false <-> s = "".
Proof. destruct s; simpl; split; intros; congruence. Qed.

(** ** Positional notation *)

Section Radix.

Local Open Scope N_scope.

Variable b : N.
Hypothesis radix : 1 < b.

Lemma size_nat_gt (n : N) : n < 2 ^ N.of_nat (N.size_nat n).
Proof.
  destruct n as [|p]; simpl; [lia|].
  induction p as [p IH|p IH|]; cbn [Pos.size_nat];
    rewrite ?Nat2N.inj_succ, ?N.pow_succ_r'; lia.
Qed.

Lemma div_radix_lt (n : N) (k : nat) :
  n < 2 ^ N.of_nat (S k) -> n / b < 2 ^ N.of_nat k.
Proof.
  rewrite Nat2N.inj_succ, N.pow_succ_r'. intros Hn.
  apply N.Div0.div_lt_upper_bound. nia.
Qed.

Lemma of_le_cons (d : N) (ds : list N) :
  bs58.of_le b (d :: ds) = bs58.of_le b ds * b + d.
Proof. reflexivity. Qed.

Lemma of_digits_of_le (ds : list N) :
  bs58.of_digits b ds = bs58.of_le b (rev ds).
Proof.
  unfold bs58.of_digits, bs58.of_le.
  now rewrite <- fold_left_rev_right.
Qed.

(** Enough fuel writes the whole number. *)
Lemma of_le_to_le (fuel : nat) : forall n : N,
  n < 2 ^ N.of_nat fuel -> bs58.of_le b (bs58.to_le fuel b n) = n.
Proof.
  induction fuel as [|fuel IH]; intros n Hn.
  - simpl in *. lia.
  - cbn [bs58.to_le]. destruct (N.eqb_spec n 0) as [->|Hnz]; [reflexivity|].
    rewrite of_le_cons, IH by now apply div_radix_lt.
    rewrite (N.div_mod n b) at 3 by lia. lia.
Qed.

Lemma to_le_digits (fuel : nat) : forall n : N,
  Forall (fun d => d < b) (bs58.to_le fuel b n).
Proof.
  induction fuel as [|fuel IH]; intros n; cbn [bs58.to_le].
  - constructor.
  - destruct (n =? 0); constructor; [|apply IH].
    apply N.mod_lt. lia.
Qed.

Lemma to_le_zero (fuel : nat) : bs58.to_le fuel b 0 = [].
Proof. destruct fuel; reflexivity. Qed.

Lemma last_cons_top (d : N) (ds : list N) :
  List.last (d :: ds) 1 = match ds with [] => d | _ :: _ => List.last ds 1 end.
Proof. destruct ds; reflexivity. Qed.

(** The most significant digit written is not zero. *)
Lemma to_le_top (fuel : nat) : forall n : N,
  n < 2 ^ N.of_nat fuel -> List.last (bs58.to_le fuel b n) 1 <> 0.
Proof.
  induction fuel as [|fuel IH]; intros n Hn; cbn [bs58.to_le].
  - simpl. lia.
  - destruct (N.eqb_spec n 0) as [->|Hnz]; [simpl; lia|].
    rewrite last_cons_top.
    pose proof (div_radix_lt n fuel Hn) as Hq.
    specialize (IH (n / b) Hq).
    destruct (bs58.to_le fuel b (n / b)) as [|d ds] eqn:Hds; [|exact IH].
    apply (f_equal (bs58.of_le b)) in Hds.
    rewrite of_le_to_le in Hds by assumption. simpl in Hds.
    rewrite N.mod_small; [assumption|].
    apply N.div_small_iff in Hds; lia.
Qed.

Lemma of_le_nonzero (ds : list N) :
  ds <> [] -> List.last ds 1 <> 0 -> bs58.of_le b ds <> 0.
Proof.
  induction ds as [|d ds IH]; intros Hne Htop; [congruence|].
  rewrite of_le_cons. rewrite last_cons_top in Htop.
  destruct ds as [|d' ds]; [simpl; lia|].
  assert (bs58.of_le b (d' :: ds) <> 0) by (apply IH; [discriminate|assumption]).
  nia.
Qed.

(** A digit list with a non-zero top digit is the one its value is
    written as. *)
Lemma to_le_of_le (ds : list N) : forall fuel : nat,
  Forall (fun d => d < b) ds ->
  List.last ds 1 <> 0 ->
  bs58.of_le b ds < 2 ^ N.of_nat fuel ->
  bs58.to_le fuel b (bs58.of_le b ds) = ds.
Proof.
  induction ds as [|d ds IH]; intros fuel Hall Htop Hlt.
  - apply to_le_zero.
  - inversion Hall as [|? ? Hd Hds]; subst.
    assert (Hnz : bs58.of_le b (d :: ds) <> 0)
      by (apply of_le_nonzero; [discriminate|assumption]).
    rewrite of_le_cons in *.
    destruct fuel as [|fuel]; [simpl in Hlt; lia|].
    cbn [bs58.to_le].
    destruct (N.eqb_spec (bs58.of_le b ds * b + d) 0) as [Hz|_]; [lia|].
    assert (Hq : (bs58.of_le b ds * b + d) / b = bs58.of_le b ds)
      by (symmetry; apply (N.div_unique _ _ _ d); lia).
    assert (Hr : (bs58.of_le b ds * b + d) mod b = d)
      by (symmetry; apply (N.mod_unique _ _ (bs58.of_le b ds)); lia).
    rewrite Hr, Hq. f_equal. apply IH; [assumption| |].
    + rewrite last_cons_top in Htop. destruct ds; [simpl; lia|assumption].
    + rewrite <- Hq. now apply div_radix_lt.
Qed.

Lemma hd_rev_last (ds : list N) : hd 1 (rev ds) = List.last ds 1.
Proof.
  destruct (rev ds) as [|h t] eqn:Hr.
  - apply (f_equal (@rev N)) in Hr. rewrite rev_involutive in Hr.
    now subst.
  - apply (f_equal (@rev N)) in Hr. rewrite rev_involutive in Hr.
    subst. simpl. now rewrite last_last.
Qed.

Lemma leading_zeros_hd (ds : list N) :
  bs58.leading_zeros ds = O <-> hd 1 ds <> 0.
Proof.
  destruct ds as [|[|p] ds]; simpl; split; intros; try lia; congruence.
Qed.

(** [to_digits] and [of_digits] are inverse to each other on digit lists
    without a leading zero. *)
Lemma of_digits_to_digits (n : N) :
  bs58.of_digits b (bs58.to_digits b n) = n.
Proof.
  unfold bs58.to_digits.
  rewrite of_digits_of_le, rev_involutive.
  apply of_le_to_le, size_nat_gt.
Qed.

Lemma to_digits_digits (n : N) :
  Forall (fun d => d < b) (bs58.to_digits b n).
Proof. apply Forall_rev, to_le_digits. Qed.

Lemma to_digits_leading (n : N) :
  bs58.leading_zeros (bs58.to_digits b n) = O.
Proof.
  apply leading_zeros_hd. unfold bs58.to_digits.
  rewrite hd_rev_last. apply to_le_top, size_nat_gt.
Qed.

Lemma to_digits_of_digits (ds : list N) :
  Forall (fun d => d < b) ds ->
  bs58.leading_zeros ds = O ->
  bs58.to_digits b (bs58.of_digits b ds) = ds.
Proof.
  intros Hall Hlead. unfold bs58.to_digits.
  rewrite of_digits_of_le, to_le_of_le.
  - apply rev_involutive.
  - now apply Forall_rev.
  - rewrite <- hd_rev_last, rev_involutive. now apply leading_zeros_hd.
  - apply size_nat_gt.
Qed.

End Radix.

(** ** Change of base *)

Section Convert.

Local Open Scope N_scope.

Lemma leading_zeros_repeat (k : nat) (t : list N) :
  bs58.leading_zeros t = O ->
  bs58.leading_zeros (repeat 0 k ++ t) = k.
Proof. intros Ht. induction k as [|k IH]; simpl; [assumption|now f_equal]. Qed.

Lemma leading_zeros_split (ds : list N) :
  exists t, ds = repeat 0 (bs58.leading_zeros ds) ++ t
            /\ bs58.leading_zeros t = O.
Proof.
  induction ds as [|d ds [t [Heq Ht]]].
  - now exists [].
  - destruct d as [|p].
    + exists t. simpl. split; [now f_equal|assumption].
    + now exists (N.pos p :: ds).
Qed.

Lemma of_digits_repeat (b : N) (k : nat) (t : list N) :
  bs58.of_digits b (repeat 0 k ++ t) = bs58.of_digits b t.
Proof.
  unfold bs58.of_digits. rewrite fold_left_app. f_equal.
  induction k as [|k IH]; simpl; [reflexivity|exact IH].
Qed.

Variables b1 b2 : N.
Hypothesis radix1 : 1 < b1.
Hypothesis radix2 : 1 < b2.

Lemma convert_digits (ds : list N) :
  Forall (fun d => d < b2) (bs58.convert b1 b2 ds).
Proof.
  unfold bs58.convert. apply Forall_app; split.
  - apply List.Forall_forall. intros d Hd%repeat_spec. lia.
  - now apply to_digits_digits.
Qed.

(** Going to the other base and back gives the digits one started
    from. *)
Lemma convert_convert (ds : list N) :
  Forall (fun d => d < b1) ds ->
  bs58.convert b2 b1 (bs58.convert b1 b2 ds) = ds.
Proof.
  intros Hall.
  destruct (leading_zeros_split ds) as [t [Heq Ht]].
  set (k := bs58.leading_zeros ds) in *.
  assert (Hall_t : Forall (fun d => d < b1) t).
  { rewrite Heq in Hall. now apply Forall_app in Hall. }
  unfold bs58.convert at 2. fold k.
  rewrite Heq at 1. rewrite of_digits_repeat.
  unfold bs58.convert.
  rewrite leading_zeros_repeat by now apply to_digits_leading.
  rewrite of_digits_repeat, of_digits_to_digits by assumption.
  rewrite to_digits_of_digits by assumption.
  now symmetry.
Qed.

End Convert.

(** ** The base58 alphabet *)

Section Alphabet.

Local Open Scope N_scope.

Lemma index_of_nth (c : ascii) (l : list ascii) : forall d : N,
  bs58.index_of c l = Some d ->
  (N.to_nat d < length l)%nat /\ nth (N.to_nat d) l "1"%char = c.
Proof.
  induction l as [|a l IH]; intros d Hd; simpl in Hd; [discriminate|].
  destruct (Ascii.eqb_spec a c) as [->|Hne].
  - injection Hd as <-. simpl. split; [lia|reflexivity].
  - destruct (bs58.index_of c l) as [d'|]; [|discriminate].
    injection Hd as <-. destruct (IH d' eq_refl) as [Hlt Hnth].
    rewrite N2Nat.inj_succ. simpl. split; [lia|assumption].
Qed.

Lemma index_of_exists (c : ascii) (l : list ascii) :
  existsb (fun a => Ascii.eqb a c) l = true ->
  exists d, bs58.index_of c l = Some d.
Proof.
  induction l as [|a l IH]; simpl; [discriminate|].
  destruct (Ascii.eqb a c); simpl; [eauto|].
  intros [d ->]%IH. eauto.
Qed.

Lemma digit_of_char_inv (c : ascii) (d : N) :
  bs58.digit_of_char c = Some d ->
  d < bs58.BASE /\ bs58.char_of_digit d = c.
Proof.
  intros [Hlt Hnth]%index_of_nth. split; [|exact Hnth].
  change (length (list_ascii_of_string bs58.ALPHABET)) with 58%nat in Hlt.
  unfold bs58.BASE. lia.
Qed.

Lemma digits_of_chars_inv (cs : list ascii) : forall ds : list N,
  bs58.digits_of_chars cs = Some ds ->
  Forall (fun d => d < bs58.BASE) ds /\ map bs58.char_of_digit ds = cs.
Proof.
  induction cs as [|c cs IH]; intros ds Hds; simpl in Hds.
  - injection Hds as <-. split; [constructor|reflexivity].
  - destruct (bs58.digit_of_char c) as [d|] eqn:Hd; [|discriminate].
    destruct (bs58.digits_of_chars cs) as [ds'|]; [|discriminate].
    injection Hds as <-.
    destruct (digit_of_char_inv c d Hd) as [Hlt Hc].
    destruct (IH ds' eq_refl) as [Hall Hcs].
    split; [now constructor|]. simpl. now rewrite Hc, Hcs.
Qed.

Lemma digits_of_chars_valid (cs : list ascii) :
  forallb bs58.in_alphabet cs = true ->
  exists ds, bs58.digits_of_chars cs = Some ds.
Proof.
  induction cs as [|c cs IH]; simpl; [eauto|].
  intros [Hc Hcs]%andb_prop.
  destruct (index_of_exists _ _ Hc) as [d Hd].
  destruct (IH Hcs) as [ds Hds].
  exists (d :: ds). unfold bs58.digit_of_char. now rewrite Hd, Hds.
Qed.

Lemma to_N_byte_of_digit (d : N) :
  d < 256 -> Byte.to_N (bs58.byte_of_digit d) = d.
Proof.
  intros Hd. unfold bs58.byte_of_digit.
  destruct (Byte.of_N d) as [x|] eqn:Hx.
  - now apply Byte.to_of_N.
  - apply Byte.of_N_None_iff in Hx. lia.
Qed.

Lemma map_to_N_byte_of_digit (ds : list N) :
  Forall (fun d => d < 256) ds ->
  map Byte.to_N (map bs58.byte_of_digit ds) = ds.
Proof.
  induction 1 as [|d ds Hd _ IH]; simpl; [reflexivity|].
  now rewrite to_N_byte_of_digit, IH.
Qed.

(** What decodes, encodes back to itself. *)
Lemma encode_decode (s : string) (bytes : list byte) :
  bs58.decode s = Some bytes -> bs58.encode bytes = s.
Proof.
  unfold bs58.decode, bs58.encode. intros Hdec.
  destruct (bs58.digits_of_chars (list_ascii_of_string s)) as [ds|] eqn:Hds;
    [|discriminate].
  injection Hdec as <-.
  destruct (digits_of_chars_inv _ _ Hds) as [Hall Hcs].
  rewrite map_to_N_byte_of_digit
    by (apply convert_digits; unfold bs58.BASE; lia).
  rewrite convert_convert by (unfold bs58.BASE in *; (lia || assumption)).
  rewrite Hcs. apply string_of_list_ascii_of_string.
Qed.

Lemma digit_of_char_of_digit (d : N) :
  d < bs58.BASE -> bs58.digit_of_char (bs58.char_of_digit d) = Some d.
Proof.
  intros Hd. rewrite <- (N2Nat.id d).
  assert (Hn : (N.to_nat d < 58)%nat) by (unfold bs58.BASE in Hd; lia).
  revert Hn. generalize (N.to_nat d) as n. intros n Hn.
  do 58 (destruct n as [|n]; [reflexivity|]). lia.
Qed.

Lemma digits_of_chars_of_digits (ds : list N) :
  Forall (fun d => d < bs58.BASE) ds ->
  bs58.digits_of_chars (map bs58.char_of_digit ds) = Some ds.
Proof.
  induction 1 as [|d ds Hd _ IH]; simpl; [reflexivity|].
  now rewrite digit_of_char_of_digit, IH.
Qed.

Lemma map_byte_of_digit_to_N (bytes : list byte) :
  map bs58.byte_of_digit (map Byte.to_N bytes) = bytes.
Proof.
  induction bytes as [|x bytes IH]; simpl; [reflexivity|].
  unfold bs58.byte_of_digit at 1. now rewrite Byte.of_to_N, IH.
Qed.

Lemma to_N_digits (bytes : list byte) :
  Forall (fun d => d < 256) (map Byte.to_N bytes).
Proof.
  induction bytes as [|x bytes IH]; simpl; constructor; [|exact IH].
  pose proof (Byte.to_N_bounded x). lia.
Qed.

(** What is encoded, decodes, and to the bytes it came from. *)
Lemma decode_encode (bytes : list byte) :
  bs58.decode (bs58.encode bytes) = Some bytes.
Proof.
  unfold bs58.decode, bs58.encode.
  rewrite list_ascii_of_string_of_list_ascii.
  rewrite digits_of_chars_of_digits
    by (apply convert_digits; unfold bs58.BASE; lia).
  rewrite convert_convert by (unfold bs58.BASE; lia || apply to_N_digits).
  now rewrite map_byte_of_digit_to_N.
Qed.

Example encode_vectors :
  bs58.encode [] = ""
  /\ bs58.encode [x61] = "2g"
  /\ bs58.encode [x62; x62; x62] = "a3gV"
  /\ bs58.encode [x00; x00; x00; x00] = "1111"
  /\ bs58.encode (list_byte_of_string "Hello World!") = "2NEpo7TZRRrLZSi2U"
  /\ bs58.encode (list_byte_of_string "simply a long string")
     = "2cFupjhnEsSn59qHXstmK2ffpLv2".
Proof. repeat split; reflexivity. Qed.

Example decode_vectors :
  bs58.decode "" = Some []
  /\ bs58.decode "11a3gV" = Some [x00; x00; x62; x62; x62]
  /\ bs58.decode "2NEpo7TZRRrLZSi2U" = Some (list_byte_of_string "Hello World!")
  /\ bs58.decode "2NEpo7TZRRrLZSi2U0" = None
  /\ bs58.decode "Il" = None.
Proof. repeat split; reflexivity. Qed.

End Alphabet.

(** C8: a valid base58 string decodes, and what it decodes to is encoded
    back to the same string by the helper that [getAccountDetails] uses
    for key material; [bs58.decode] is the one the transaction builders
    use. *)
Theorem bs58_decode_then_encode (s : string) :
  bs58.valid s = true ->
  exists bytes, bs58.decode s = Some bytes
                /\ KeyPair.encodeBufferInBs58 bytes = s.
Proof.
  intros Hvalid.
  destruct (digits_of_chars_valid _ Hvalid) as [ds Hds].
  assert (Hdec : bs58.decode s
                 = Some (map bs58.byte_of_digit (bs58.convert bs58.BASE 256 ds)))
    by (unfold bs58.decode; now rewrite Hds).
  eexists. split; [exact Hdec|].
  now apply encode_decode.
Qed.

Lemma bs58_decode_then_encode_witness :
  bs58.valid "2NEpo7TZRRrLZSi2U" = true
  /\ exists bytes, bs58.decode "2NEpo7TZRRrLZSi2U" = Some bytes
                   /\ KeyPair.encodeBufferInBs58 bytes = "2NEpo7TZRRrLZSi2U".
Proof.
  split; [reflexivity|].
  apply (bs58_decode_then_encode "2NEpo7TZRRrLZSi2U"). reflexivity.
Defined.

(** ** Running a method *)

Section RunFacts.

Context {W E : Type} (client : nearClient.t W E).

Lemma run_bind {A B : Type} (p : Async A) (f : A -> Async B) : forall w : W,
  run client (bind p f) w =
    let '(evs, w1, o) := run client p w in
    match o with
    | inl e => (evs, w1, inl e)
    | inr a =>
        let '(evs', w2, o') := run client (f a) w1 in (evs ++ evs', w2, o')
    end.
Proof.
  revert B f.
  induction p as [A a|A m|A X c k IH|A X body _ handler _ k IH];
    intros B f w; simpl.
  - now destruct (run client (f a) w) as [[evs' w2] o'].
  - reflexivity.
  - destruct (handle client c w) as [w1 [e|x]]; [reflexivity|].
    rewrite IH.
    destruct (run client (k x) w1) as [[evs w2] [e|a]]; [reflexivity|].
    destruct (run client (f a) w2) as [[evs' w3] o'].
    now rewrite app_assoc.
  - destruct (run client body w) as [[evs1 w1] [e1|x]].
    + destruct (run client handler w1) as [[evs2 w2] [e2|x]];
        [reflexivity|].
      rewrite IH.
      destruct (run client (k x) w2) as [[evs w3] [e|a]]; [reflexivity|].
      destruct (run client (f a) w3) as [[evs' w4] o'].
      now rewrite <- !app_assoc.
    + rewrite IH.
      destruct (run client (k x) w1) as [[evs w2] [e|a]]; [reflexivity|].
      destruct (run client (f a) w2) as [[evs' w3] o'].
      now rewrite app_assoc.
Qed.

(** The three ledger-changing methods share one course: fetch the nonce,
    decode the key, build the message, submit it. *)
Lemma run_mutation (account key : string)
    (build : Z -> list byte -> Transaction) (w : W) :
  run client
    (nonce ← await (GetNonce account);
     decoded ← bs58_decode key;
     await (SignAndSubmitTransaction account (build nonce decoded))) w =
  match nearClient.getNonce client account w with
  | (w1, inl e) => ([EvGetNonce account (inl e)], w1, inl (Raised e))
  | (w1, inr n) =>
      match bs58.decode key with
      | None =>
          ([EvGetNonce account (inr n)], w1,
           inl (Error "Non-base58 character"))
      | Some decoded =>
          let (w2, r) :=
            nearClient.signAndSubmitTransaction client account
              (build n decoded) w1 in
          ([EvGetNonce account (inr n);
            EvSubmit account (build n decoded) r], w2, settle r)
      end
  end.
Proof.
  simpl. destruct (nearClient.getNonce client account w) as [w1 [e|n]];
    [reflexivity|].
  unfold bs58_decode. destruct (bs58.decode key) as [decoded|]; simpl;
    [|reflexivity].
  destruct (nearClient.signAndSubmitTransaction client account
              (build n decoded) w1) as [w2 [e|x]]; reflexivity.
Qed.

End RunFacts.

(** ** The payloads of [createAccount] and [addAccessKey] *)

Section Payloads.

Context {W E : Type} (client : nearClient.t W E).

Import Account.

(** What [createAccount] hands over once the nonce is [n] and the key
    decodes to [key]. *)
Lemma createAccount_run (newAccountId publicKey : string) (amount : Z)
    (originator : string) (w : W) :
  run client (createAccount newAccountId publicKey amount originator) w =
  match nearClient.getNonce client originator w with
  | (w1, inl e) => ([EvGetNonce originator (inl e)], w1, inl (Raised e))
  | (w1, inr n) =>
      match bs58.decode publicKey with
      | None =>
          ([EvGetNonce originator (inr n)], w1,
           inl (Error "Non-base58 character"))
      | Some key =>
          let tx :=
            TxCreateAccount
              {| CreateAccountTransaction.nonce := n;
                 CreateAccountTransaction.originator := originator;
                 CreateAccountTransaction.newAccountId := newAccountId;
                 CreateAccountTransaction.publicKey := key;
                 CreateAccountTransaction.amount :=
                   if amount =? 0 then None else Some amount |} in
          let (w2, r) :=
            nearClient.signAndSubmitTransaction client originator tx w1 in
          ([EvGetNonce originator (inr n); EvSubmit originator tx r],
           w2, settle r)
      end
  end.
Proof.
  unfold createAccount.
  rewrite (run_mutation client originator publicKey
             (fun nonce key =>
                TxCreateAccount
                  (if negb (amount =? 0)
                   then CreateAccountTransaction.set_amount amount
                          (CreateAccountTransaction.create nonce originator
                             newAccountId key)
                   else CreateAccountTransaction.create nonce originator
                          newAccountId key))).
  destruct (nearClient.getNonce client originator w) as [w1 [e|n]];
    [reflexivity|].
  destruct (bs58.decode publicKey) as [key|]; [|reflexivity].
  now destruct (amount =? 0).
Qed.

(** C1: once the nonce is fetched and the key decodes, [createAccount]
    hands over exactly one payload, a CreateAccount message with the
    fetched nonce, the given account ids and the decoded key; it has no
    [amount] member at all when [amount] is zero, and its [amount] member
    is exactly [k] when [amount] is some [k > 0]. *)
Theorem createAccount_amount_member (newAccountId publicKey : string)
    (amount : Z) (originator : string) (w w1 : W) (n : Z)
    (key : list byte) :
  nearClient.getNonce client originator w = (w1, inr n) ->
  bs58.decode publicKey = Some key ->
  exists m,
    submitted
      (trace client
         (createAccount newAccountId publicKey amount originator) w)
    = [(originator, TxCreateAccount m)]
    /\ CreateAccountTransaction.nonce m = n
    /\ CreateAccountTransaction.originator m = originator
    /\ CreateAccountTransaction.newAccountId m = newAccountId
    /\ CreateAccountTransaction.publicKey m = key
    /\ (amount = 0 -> CreateAccountTransaction.amount m = None)
    /\ (forall k, amount = k -> 0 < k ->
        CreateAccountTransaction.amount m = Some k).
Proof.
  intros Hnonce Hkey. unfold trace.
  rewrite createAccount_run, Hnonce, Hkey. cbv zeta.
  match goal with
  | |- context [nearClient.signAndSubmitTransaction client originator ?t w1] =>
      destruct (nearClient.signAndSubmitTransaction client originator t w1)
        as [w2 r]
  end.
  eexists. split; [reflexivity|]. simpl. do 4 (split; [reflexivity|]). split.
  - now intros ->.
  - intros k -> Hk. destruct (Z.eqb_spec k 0); [lia|reflexivity].
Qed.

(** C9: with a negative [amount], a fetched nonce and a key that
    decodes, the message is submitted all the same, its [amount] member
    set to that negative number. *)
Theorem createAccount_negative_amount (newAccountId publicKey : string)
    (amount : Z) (originator : string) (w w1 : W) (n : Z)
    (key : list byte) :
  amount < 0 ->
  nearClient.getNonce client originator w = (w1, inr n) ->
  bs58.decode publicKey = Some key ->
  let tx :=
    TxCreateAccount
      {| CreateAccountTransaction.nonce := n;
         CreateAccountTransaction.originator := originator;
         CreateAccountTransaction.newAccountId := newAccountId;
         CreateAccountTransaction.publicKey := key;
         CreateAccountTransaction.amount := Some amount |} in
  submitted
    (trace client
       (createAccount newAccountId publicKey amount originator) w)
  = [(originator, tx)]
  /\ outcome client
       (createAccount newAccountId publicKey amount originator) w
     = settle
         (nearClient.signAndSubmitTransaction client originator tx w1).2.
Proof.
  intros Hneg Hnonce Hkey tx. unfold trace, outcome.
  rewrite createAccount_run, Hnonce, Hkey.
  destruct (Z.eqb_spec amount 0) as [?|_]; [lia|]. fold tx. cbv zeta.
  now destruct (nearClient.signAndSubmitTransaction client originator tx w1).
Qed.

Lemma addAccessKey_run (ownersAccountId newPublicKey contractId methodName
    fundingOwner : string) (fundingAmount : Z) (w : W) :
  run client
    (addAccessKey ownersAccountId newPublicKey contractId methodName
       fundingOwner fundingAmount) w =
  match nearClient.getNonce client ownersAccountId w with
  | (w1, inl e) => ([EvGetNonce ownersAccountId (inl e)], w1, inl (Raised e))
  | (w1, inr n) =>
      match bs58.decode newPublicKey with
      | None =>
          ([EvGetNonce ownersAccountId (inr n)], w1,
           inl (Error "Non-base58 character"))
      | Some key =>
          let accessKey :=
            if truthy contractId then
              Some {| AccessKey.contractId :=
                        Some {| StringValue.value := contractId |};
                      AccessKey.methodName :=
                        if truthy methodName
                        then Some {| BytesValue.value :=
                                       list_byte_of_string methodName |}
                        else None;
                      AccessKey.balanceOwner :=
                        if truthy fundingOwner
                        then Some {| StringValue.value := fundingOwner |}
                        else None;
                      AccessKey.amount :=
                        if 0 <? fundingAmount then Some fundingAmount
                        else None |}
            else None in
          let tx :=
            TxAddKey
              {| AddKeyTransaction.nonce := n;
                 AddKeyTransaction.originator := ownersAccountId;
                 AddKeyTransaction.newKey := key;
                 AddKeyTransaction.accessKey := accessKey |} in
          let (w2, r) :=
            nearClient.signAndSubmitTransaction client ownersAccountId tx w1
          in
          ([EvGetNonce ownersAccountId (inr n);
            EvSubmit ownersAccountId tx r], w2, settle r)
      end
  end.
Proof.
  unfold addAccessKey.
  simpl. destruct (nearClient.getNonce client ownersAccountId w)
    as [w1 [e|n]]; [reflexivity|].
  unfold bs58_decode. destruct (bs58.decode newPublicKey) as [key|]; simpl;
    [|reflexivity].
  destruct (truthy contractId), (truthy methodName), (truthy fundingOwner),
    (0 <? fundingAmount);
    cbv [AddKeyTransaction.create AccessKey.create AccessKey.set_contractId
         AccessKey.set_methodName AccessKey.set_balanceOwner
         AccessKey.set_amount AccessKey.contractId AccessKey.methodName
         AccessKey.balanceOwner AccessKey.amount StringValue.create
         BytesValue.create Uint8Array_from Buffer_from];
    match goal with
    | |- context [nearClient.signAndSubmitTransaction client _ ?t w1] =>
        destruct (nearClient.signAndSubmitTransaction client
                    ownersAccountId t w1) as [w2 [e|x]]
    end; reflexivity.
Qed.

(** The one payload of [addAccessKey], read off its run. *)
Ltac addAccessKey_payload Hnonce Hkey w1 w2 r :=
  unfold trace; rewrite addAccessKey_run, Hnonce, Hkey; cbv zeta;
  match goal with
  | |- context [nearClient.signAndSubmitTransaction client ?a ?t w1] =>
      destruct (nearClient.signAndSubmitTransaction client a t w1)
        as [w2 r]
  end.

(** C2: once the nonce is fetched and the key decodes, [addAccessKey]
    submits exactly one AddKey message, with the fetched nonce, the owner
    and the decoded key.  With an empty [contractId] no AccessKey is built
    and the message goes out without one; with a non-empty [contractId]
    and an empty [methodName] its access key has [contractId] set and no
    [methodName] member. *)
Theorem addAccessKey_scope (ownersAccountId newPublicKey contractId
    methodName fundingOwner : string) (fundingAmount : Z) (w w1 : W)
    (n : Z) (key : list byte) :
  nearClient.getNonce client ownersAccountId w = (w1, inr n) ->
  bs58.decode newPublicKey = Some key ->
  exists m,
    submitted
      (trace client
         (addAccessKey ownersAccountId newPublicKey contractId methodName
            fundingOwner fundingAmount) w)
    = [(ownersAccountId, TxAddKey m)]
    /\ AddKeyTransaction.nonce m = n
    /\ AddKeyTransaction.originator m = ownersAccountId
    /\ AddKeyTransaction.newKey m = key
    /\ (contractId = "" -> AddKeyTransaction.accessKey m = None)
    /\ (contractId <> "" -> methodName = "" ->
        exists k,
          AddKeyTransaction.accessKey m = Some k
          /\ AccessKey.contractId k = Some (StringValue.create contractId)
          /\ AccessKey.methodName k = None).
Proof.
  intros Hnonce Hkey. addAccessKey_payload Hnonce Hkey w1 w2 r.
  eexists. split; [reflexivity|]. simpl. do 3 (split; [reflexivity|]). split.
  - now intros ->.
  - intros Hc%truthy_true_iff ->. rewrite Hc. simpl. eauto.
Qed.

(** C3: with a non-empty [contractId], once the nonce is fetched and the
    key decodes, the one AddKey message that [addAccessKey] submits has an
    access key that always has [contractId]; that has [methodName], the
    bytes of the method name, exactly when the method name is non-empty;
    [balanceOwner] exactly when [fundingOwner] is non-empty; and [amount]
    exactly when [fundingAmount] is positive. *)
Theorem addAccessKey_members (ownersAccountId newPublicKey contractId
    methodName fundingOwner : string) (fundingAmount : Z) (w w1 : W)
    (n : Z) (key : list byte) :
  contractId <> "" ->
  nearClient.getNonce client ownersAccountId w = (w1, inr n) ->
  bs58.decode newPublicKey = Some key ->
  exists m k,
    submitted
      (trace client
         (addAccessKey ownersAccountId newPublicKey contractId methodName
            fundingOwner fundingAmount) w)
    = [(ownersAccountId, TxAddKey m)]
    /\ AddKeyTransaction.accessKey m = Some k
    /\ AccessKey.contractId k = Some {| StringValue.value := contractId |}
    /\ AccessKey.methodName k =
         (if decide (methodName = "") then None
          else Some {| BytesValue.value := list_byte_of_string methodName |})
    /\ AccessKey.balanceOwner k =
         (if decide (fundingOwner = "") then None
          else Some {| StringValue.value := fundingOwner |})
    /\ AccessKey.amount k =
         (if decide (0 < fundingAmount) then Some fundingAmount else None).
Proof.
  intros Hc%truthy_true_iff Hnonce Hkey.
  addAccessKey_payload Hnonce Hkey w1 w2 r.
  rewrite Hc. eexists _, _. do 2 (split; [reflexivity|]). simpl.
  split; [reflexivity|]. repeat split.
  - destruct (decide (methodName = "")) as [->|Hm]; [reflexivity|].
    apply truthy_true_iff in Hm. now rewrite Hm.
  - destruct (decide (fundingOwner = "")) as [->|Hf]; [reflexivity|].
    apply truthy_true_iff in Hf. now rewrite Hf.
  - destruct (decide (0 < fundingAmount)), (Z.ltb_spec 0 fundingAmount);
      (reflexivity || lia).
Qed.

(** C10: with an empty [contractId] the method name plays no part: once
    the nonce is fetched and the key decodes, the AddKey message goes out
    without an access key, and the method settles the way the submission
    does. *)
Theorem addAccessKey_methodName_ignored (ownersAccountId newPublicKey
    contractId methodName fundingOwner : string) (fundingAmount : Z)
    (w w1 : W) (n : Z) (key : list byte) :
  contractId = "" ->
  methodName <> "" ->
  nearClient.getNonce client ownersAccountId w = (w1, inr n) ->
  bs58.decode newPublicKey = Some key ->
  let tx :=
    TxAddKey
      {| AddKeyTransaction.nonce := n;
         AddKeyTransaction.originator := ownersAccountId;
         AddKeyTransaction.newKey := key;
         AddKeyTransaction.accessKey := None |} in
  submitted
    (trace client
       (addAccessKey ownersAccountId newPublicKey contractId methodName
          fundingOwner fundingAmount) w)
  = [(ownersAccountId, tx)]
  /\ outcome client
       (addAccessKey ownersAccountId newPublicKey contractId methodName
          fundingOwner fundingAmount) w
     = settle
         (nearClient.signAndSubmitTransaction client ownersAccountId tx
            w1).2.
Proof.
  intros -> _ Hnonce Hkey tx. unfold trace, outcome.
  rewrite addAccessKey_run, Hnonce, Hkey. simpl truthy. cbv iota zeta.
  fold tx.
  now destruct (nearClient.signAndSubmitTransaction client ownersAccountId
                  tx w1).
Qed.

End Payloads.

(** ** [getAccountDetails] *)

Section Details.

Context {W E : Type} (client : nearClient.t W E).

Import Account.

(** The callback of [getAccountDetails]. *)
Local Abbreviation push decoded :=
  (fun key authorizedApps =>
     match Object_get key decoded with
     | Some entry => Return (authorizedApps ++ [authorizedApp entry])
     | None => Throw "TypeError: Cannot read property '1' of undefined"
     end).

Lemma Object_get_key {V : Type} (o : list (string * V)) (k : string) :
  In k (Object_keys o) -> exists v, Object_get k o = Some v.
Proof.
  induction o as [|[k0 v0] o IH]; intros Hin; [destruct Hin|].
  simpl. destruct (String.eqb_spec k0 k) as [->|Hne]; [eauto|].
  destruct Hin as [Heq|Hin]; [contradiction|now apply IH].
Qed.

Lemma Object_get_entry {V : Type} (o : list (string * V)) :
  NoDup (Object_keys o) ->
  forall k v, In (k, v) o -> Object_get k o = Some v.
Proof.
  induction o as [|[k0 v0] o IH]; intros Hnd k v Hin; [destruct Hin|].
  apply NoDup_cons in Hnd as [Hk0 Hnd]. simpl.
  destruct Hin as [[= -> ->]|Hin].
  - now rewrite String.eqb_refl.
  - destruct (String.eqb_spec k0 k) as [->|_]; [|now apply IH].
    exfalso. apply Hk0. apply list_elem_of_In.
    unfold Object_keys. apply in_map_iff. now exists (k, v).
Qed.

(** The loop makes no call, whatever it finds. *)
Lemma forEach_silent (decoded : DecodedResponse) (keys : list string) :
  forall (acc : list AuthorizedApp.t) (w : W),
    (run client (forEach keys (push decoded) acc) w).1 = ([], w).
Proof.
  induction keys as [|key keys IH]; intros acc w; [reflexivity|].
  cbn [forEach]. change (mbind ?f ?p) with (bind p f). rewrite run_bind.
  destruct (Object_get key decoded) as [entry|]; simpl; [|reflexivity].
  specialize (IH (acc ++ [authorizedApp entry]) w).
  destruct (run client (forEach keys _ _) w) as [[evs w'] o].
  simpl in *. now injection IH as -> ->.
Qed.

(** Over keys of the object, the loop pushes one record per key, in
    order, each made from the entry under its key. *)
Lemma forEach_keys (decoded : DecodedResponse) (keys : list string) :
  (forall k, In k keys -> In k (Object_keys decoded)) ->
  forall (acc : list AuthorizedApp.t) (w : W),
    exists apps,
      (run client (forEach keys (push decoded) acc) w).2 = inr (acc ++ apps)
      /\ Forall2 (fun key app =>
                    exists entry, Object_get key decoded = Some entry
                                  /\ app = authorizedApp entry)
                 keys apps.
Proof.
  induction keys as [|key keys IH]; intros Hkeys acc w.
  - exists []. simpl. rewrite app_nil_r. split; [reflexivity|constructor].
  - cbn [forEach]. change (mbind ?f ?p) with (bind p f). rewrite run_bind.
    destruct (Object_get_key decoded key) as [entry Hentry];
      [apply Hkeys; now left|].
    rewrite Hentry. simpl.
    destruct (IH (fun k Hk => Hkeys k (or_intror Hk))
                 (acc ++ [authorizedApp entry]) w) as (apps & Hrun & Hall).
    destruct (run client (forEach keys _ _) w) as [[evs w'] o].
    simpl in *. subst o.
    exists (authorizedApp entry :: apps). rewrite <- app_assoc.
    split; [reflexivity|]. constructor; [eauto|assumption].
Qed.

Lemma entries_of_keys_in (decoded entries : DecodedResponse) :
  (forall k v, In (k, v) entries -> Object_get k decoded = Some v) ->
  forall apps : list AuthorizedApp.t,
    Forall2 (fun key app =>
               exists entry, Object_get key decoded = Some entry
                             /\ app = authorizedApp entry)
            (Object_keys entries) apps ->
    apps = map (fun kv => authorizedApp kv.2) entries.
Proof.
  induction entries as [|[k v] entries IH]; intros Hget apps Hall.
  - now inversion Hall.
  - inversion Hall as [|? app ? apps' (entry & Hentry & ->) Hall']; subst.
    rewrite (Hget k v) in Hentry by now left. injection Hentry as <-.
    simpl. f_equal. apply IH; [|assumption].
    intros k' v' Hin. apply Hget. now right.
Qed.

(** With distinct keys, that is one record per listed entry. *)
Lemma entries_of_keys (decoded : DecodedResponse)
    (apps : list AuthorizedApp.t) :
  NoDup (Object_keys decoded) ->
  Forall2 (fun key app =>
             exists entry, Object_get key decoded = Some entry
                           /\ app = authorizedApp entry)
          (Object_keys decoded) apps ->
  apps = map (fun kv => authorizedApp kv.2) decoded.
Proof.
  intros Hnd. apply entries_of_keys_in. now apply Object_get_entry.
Qed.


(** An object's keys are distinct, so this is one record per entry of the
    decoded answer, as listed. *)
Corollary getAccountDetails_entries (accountId : string) (w : W)
    (details : AccountDetails.t) :
  outcome client (getAccountDetails accountId) w = inr details ->
  exists value decoded,
    In (EvDecode value (inr decoded))
       (trace client (getAccountDetails accountId) w)
    /\ (NoDup (Object_keys decoded) ->
        AccountDetails.authorizedApps details
        = map (fun kv => authorizedApp kv.2) decoded).
Proof.
  unfold outcome, trace, getAccountDetails.
  change (mbind ?f ?p) with (bind p f). simpl.
  destruct (nearClient.jsonRpcRequest client _ _ w) as [w1 [e|response]];
    [discriminate|].
  destruct (nearClient.decodeResponseValue client _ w1) as [w2 [e|decoded]];
    [discriminate|].
  change (mbind ?f ?p) with (bind p f). rewrite run_bind.
  destruct (forEach_keys decoded (Object_keys decoded) (fun k Hk => Hk) [] w2)
    as (apps & Hrun & Hall).
  destruct (run client (forEach (Object_keys decoded) _ _) w2)
    as [[evs w3] [e|apps']]; [discriminate|].
  simpl in *. injection Hrun as ->. intros [= <-].
  exists (Response.value (Response.response response)), decoded.
  split; [right; left; reflexivity|].
  intros Hnd. simpl. now apply entries_of_keys.
Qed.

(** The [TypeError] of the callback cannot happen: the keys come from the
    object that is read. *)
Lemma getAccountDetails_no_TypeError (accountId message : string) (w : W) :
  outcome client (getAccountDetails accountId) w <> inl (Error message).
Proof.
  unfold outcome, getAccountDetails.
  change (mbind ?f ?p) with (bind p f). simpl.
  destruct (nearClient.jsonRpcRequest client _ _ w) as [w1 [e|response]];
    [discriminate|].
  destruct (nearClient.decodeResponseValue client _ w1) as [w2 [e|decoded]];
    [discriminate|].
  change (mbind ?f ?p) with (bind p f). rewrite run_bind.
  destruct (forEach_keys decoded (Object_keys decoded) (fun k Hk => Hk) [] w2)
    as (apps & Hrun & _).
  destruct (run client (forEach (Object_keys decoded) _ _) w2)
    as [[evs w3] [e|apps']]; simpl in *; discriminate.
Qed.

End Details.

(** ** Nonces and failures *)

Section Discipline.

Context {W E : Type} (client : nearClient.t W E).

Import Account.

(** Each ledger-changing method is the common course of [run_mutation]
    around a message that carries the nonce it is given. *)
Lemma mutation_course (account : string) (p : Async JsObject) :
  mutation account p ->
  exists key build,
    p = (nonce ← await (GetNonce account);
         decoded ← bs58_decode key;
         await (SignAndSubmitTransaction account (build nonce decoded)))
    /\ forall n decoded, tx_nonce (build n decoded) = n.
Proof.
  destruct 1 as [a pk amount o|o pk c m fo fa|o pk].
  - exists pk,
      (fun nonce key =>
         TxCreateAccount
           (if negb (amount =? 0)
            then CreateAccountTransaction.set_amount amount
                   (CreateAccountTransaction.create nonce o a key)
            else CreateAccountTransaction.create nonce o a key)).
    split; [reflexivity|]. intros n decoded. now destruct (amount =? 0).
  - eexists pk, (fun nonce key => TxAddKey (AddKeyTransaction.create nonce o key _)).
    split; reflexivity.
  - exists pk,
      (fun nonce key => TxDeleteKey (DeleteKeyTransaction.create nonce o key)).
    split; reflexivity.
Qed.

Lemma observe_answer {X : Type} (c : Call X) (x : X) (ev : Event E) :
  observe c (inr x) = Some ev -> failure ev = None.
Proof. destruct c; intros [= <-]; reflexivity. Qed.

Lemma observe_rejection {X : Type} (c : Call X) (e : E) (ev : Event E) :
  observe c (inl e) = Some ev -> failure ev = Some e.
Proof. destruct c; intros [= <-]; reflexivity. Qed.

Lemma handler_free_bind {A B : Type} (p : Async A) (f : A -> Async B) :
  handler_free p -> (forall a, handler_free (f a)) -> handler_free (bind p f).
Proof.
  revert B f.
  induction p as [A a|A m|A X c k IH|A X body _ handler _ k _];
    intros B f Hp Hf; simpl in *; auto.
Qed.

Lemma handler_free_forEach {K St : Type} (keys : list K)
    (callback : K -> St -> Async St) :
  (forall key st, handler_free (callback key st)) ->
  forall st, handler_free (forEach keys callback st).
Proof.
  intros Hcb. induction keys as [|key keys IH]; intros st; simpl; [exact I|].
  change (mbind ?f ?p) with (bind p f).
  apply handler_free_bind; [apply Hcb|exact IH].
Qed.

Lemma handler_free_bs58_decode (s : string) : handler_free (bs58_decode s).
Proof. unfold bs58_decode. now destruct (bs58.decode s). Qed.

(** None of the five operations has a [try]. *)
Lemma operation_handler_free {A : Type} (p : Async A) :
  operation p -> handler_free p.
Proof.
  destruct 1 as [a pk amount o|o pk c m fo fa|o pk|a|a].
  - unfold createAccount. change (mbind ?f ?p) with (bind p f).
    simpl. intros n. apply handler_free_bind;
      [apply handler_free_bs58_decode|]. intros key x. exact I.
  - unfold addAccessKey. change (mbind ?f ?p) with (bind p f).
    simpl. intros n. apply handler_free_bind;
      [apply handler_free_bs58_decode|]. intros key x. exact I.
  - unfold removeAccessKey. change (mbind ?f ?p) with (bind p f).
    simpl. intros n. apply handler_free_bind;
      [apply handler_free_bs58_decode|]. intros key x. exact I.
  - intros x. exact I.
  - unfold getAccountDetails. change (mbind ?f ?p) with (bind p f).
    simpl. intros response decoded. apply handler_free_bind.
    + apply handler_free_forEach. intros key st.
      now destruct (Object_get key decoded).
    + intros apps. exact I.
Qed.

(** In a body without [try], a rejected call ends the method: it is the
    last call made, and what it was rejected with is what the method is
    rejected with. *)
Lemma rejection_is_final {A : Type} (p : Async A) :
  handler_free p ->
  forall (w : W) (ev : Event E) (e : E),
    In ev (trace client p w) ->
    failure ev = Some e ->
    outcome client p w = inl (Raised e)
    /\ exists pre, trace client p w = pre ++ [ev]
                   /\ Forall (fun ev' => failure ev' = None) pre.
Proof.
  unfold trace, outcome.
  induction p as [A a|A m|A X c k IH|A X body _ handler _ k _];
    intros Hfree w ev e Hin Hfail;
    [destruct Hin|destruct Hin| |destruct Hfree].
  simpl in *. destruct (handle client c w) as [w1 [e0|x]].
  - destruct (observe c (inl e0)) as [ev0|] eqn:Hobs; [|destruct Hin].
    destruct Hin as [<-|[]].
    rewrite (observe_rejection _ _ _ Hobs) in Hfail.
    injection Hfail as <-.
    split; [reflexivity|]. exists []. split; [reflexivity|constructor].
  - specialize (IH x (Hfree x) w1 ev e).
    destruct (run client (k x) w1) as [[evs w2] o]. simpl in *.
    apply in_app_or in Hin as [Hin|Hin].
    + destruct (observe c (inr x)) as [ev0|] eqn:Hobs; [|destruct Hin].
      destruct Hin as [<-|[]].
      rewrite (observe_answer _ _ _ Hobs) in Hfail. discriminate.
    + destruct (IH Hin Hfail) as [Ho (pre & -> & Hpre)].
      split; [assumption|].
      exists (option_list (observe c (inr x)) ++ pre).
      split; [now rewrite app_assoc|].
      apply Forall_app; split; [|assumption].
      destruct (observe c (inr x)) as [ev0|] eqn:Hobs; [|constructor].
      constructor; [|constructor]. exact (observe_answer _ _ _ Hobs).
Qed.

(** No operation makes more than two calls. *)
Lemma operation_calls {A : Type} (p : Async A) (w : W) :
  operation p -> (length (trace client p w) <= 2)%nat.
Proof.
  assert (Hmut : forall account q, mutation account q ->
                   (length (trace client q w) <= 2)%nat).
  { intros account q (key & build & -> & _)%mutation_course.
    unfold trace. rewrite run_mutation.
    destruct (nearClient.getNonce client account w) as [w1 [e|n]];
      [simpl; lia|].
    destruct (bs58.decode key) as [decoded|]; [|simpl; lia].
    destruct (nearClient.signAndSubmitTransaction client account _ w1).
    simpl; lia. }
  destruct 1 as [a pk amount o|o pk c m fo fa|o pk|a|a].
  - eapply Hmut; constructor.
  - eapply Hmut; constructor.
  - eapply Hmut; constructor.
  - unfold trace. simpl.
    destruct (nearClient.viewAccount client a w) as [w1 [e|x]]; simpl; lia.
  - unfold trace, getAccountDetails.
    change (mbind ?f ?p) with (bind p f). simpl.
    destruct (nearClient.jsonRpcRequest client _ _ w) as [w1 [e|response]];
      [simpl; lia|].
    destruct (nearClient.decodeResponseValue client _ w1)
      as [w2 [e|decoded]]; [simpl; lia|].
    change (mbind ?f ?p) with (bind p f). rewrite run_bind.
    pose proof (forEach_silent client decoded (Object_keys decoded) [] w2)
      as Hsilent.
    destruct (run client (forEach (Object_keys decoded) _ _) w2)
      as [[evs w3] [e|apps]]; simpl in *; injection Hsilent as -> ->;
      simpl; lia.
Qed.

End Discipline.

(** ** [createAccountWithRandomKey] *)

Section RandomKey.

Context {W E : Type} (client : nearClient.t W E).

Import Account.

Lemma spread_lookup (o1 o2 : JsObject) (f : string) :
  spread o1 o2 !! f =
    match o2 !! f with
    | Some v => Some v
    | None => o1 !! f
    end.
Proof.
  unfold spread. destruct (o2 !! f) as [v|] eqn:Hf.
  - now apply lookup_union_Some_l.
  - now apply lookup_union_r.
Qed.

Lemma run_random {A : Type} (k : KeyPair.t -> Async A) (w : W) :
  run client (Await FromRandomSeed k) w =
    let (w1, key) := nearClient.fromRandomSeed client w in
    let '(evs, w2, o) := run client (k key) w1 in
    (EvRandomKey key :: evs, w2, o).
Proof.
  simpl. now destruct (nearClient.fromRandomSeed client w) as [w1 key].
Qed.

Lemma createAccountWithRandomKey_run (newAccountId : string) (amount : Z)
    (originatorAccountId : string) (w : W) :
  run client
    (createAccountWithRandomKey newAccountId amount originatorAccountId) w =
  let (w1, key) := nearClient.fromRandomSeed client w in
  let '(evs, w2, o) :=
    run client
      (createAccount newAccountId (KeyPair.getPublicKey key) amount
         originatorAccountId) w1 in
  (EvRandomKey key :: evs, w2,
   match o with
   | inl e => inl e
   | inr result => inr (spread {["key" := JsKeyPair key]} result)
   end).
Proof.
  change (createAccountWithRandomKey newAccountId amount originatorAccountId)
    with (Await FromRandomSeed
            (fun key =>
               bind (createAccount newAccountId (KeyPair.getPublicKey key)
                       amount originatorAccountId)
                    (fun result =>
                       Return (spread {["key" := JsKeyPair key]} result)))).
  rewrite run_random.
  destruct (nearClient.fromRandomSeed client w) as [w1 k].
  rewrite run_bind.
  destruct (run client (createAccount _ _ _ _) w1) as [[evs w2] [e|result]];
    simpl; [reflexivity|].
  now rewrite app_nil_r.
Qed.

(** What the method does in general: one key pair is drawn first;
    [createAccount] then runs with its base58 public key and the given
    account ids and amount; a failure of it is the failure of the method;
    and when it succeeds, every member of the submission result is a
    member of the returned object, whose [key] is the drawn key pair as
    long as the submission result has no [key] of its own. *)
Lemma createAccountWithRandomKey_result (newAccountId : string)
    (amount : Z) (originatorAccountId : string) (w : W) :
  let (w1, keyWithRandomSeed) := nearClient.fromRandomSeed client w in
  let create :=
    createAccount newAccountId (KeyPair.getPublicKey keyWithRandomSeed)
      amount originatorAccountId in
  let method :=
    createAccountWithRandomKey newAccountId amount originatorAccountId in
  trace client method w
  = EvRandomKey keyWithRandomSeed :: trace client create w1
  /\ match outcome client create w1 with
     | inl e => outcome client method w = inl e
     | inr createAccountResult =>
         exists returned,
           outcome client method w = inr returned
           /\ (forall f v, createAccountResult !! f = Some v ->
                           returned !! f = Some v)
           /\ (createAccountResult !! "key" = None ->
               returned !! "key" = Some (JsKeyPair keyWithRandomSeed))
     end.
Proof.
  unfold trace, outcome. rewrite createAccountWithRandomKey_run.
  destruct (nearClient.fromRandomSeed client w) as [w1 k].
  destruct (run client (createAccount _ _ _ _) w1) as [[evs w2] [e|result]];
    simpl.
  - split; reflexivity.
  - split; [reflexivity|].
    eexists. split; [reflexivity|]. split.
    + intros f v Hf. now rewrite spread_lookup, Hf.
    + intros Hkey. now rewrite spread_lookup, Hkey, lookup_singleton_eq.
Qed.

(** X13: the key that was drawn is the key the new account is created
    with: once the nonce is fetched, [createAccountWithRandomKey] submits
    one CreateAccount message whose [publicKey] is the drawn key pair's
    public key, byte for byte; its base58 string always decodes. *)
Lemma createAccountWithRandomKey_payload (newAccountId : string)
    (amount : Z) (originatorAccountId : string) (w w1 w2 : W)
    (k : KeyPair.t) (n : Z) :
  nearClient.fromRandomSeed client w = (w1, k) ->
  nearClient.getNonce client originatorAccountId w1 = (w2, inr n) ->
  submitted
    (trace client
       (createAccountWithRandomKey newAccountId amount originatorAccountId)
       w)
  = [(originatorAccountId,
      TxCreateAccount
        {| CreateAccountTransaction.nonce := n;
           CreateAccountTransaction.originator := originatorAccountId;
           CreateAccountTransaction.newAccountId := newAccountId;
           CreateAccountTransaction.publicKey := KeyPair.publicKey k;
           CreateAccountTransaction.amount :=
             if amount =? 0 then None else Some amount |})].
Proof.
  intros Hseed Hnonce.
  unfold trace. rewrite createAccountWithRandomKey_run, Hseed.
  rewrite createAccount_run, Hnonce.
  unfold KeyPair.getPublicKey. rewrite decode_encode. cbv zeta.
  now destruct (nearClient.signAndSubmitTransaction client _ _ w2).
Qed.

End RandomKey.

(** C6: the method is to return the key pair it drew ("Returns the key
    pair to the caller"), as [key], beside the members of the submission
    result.  It spreads the result after [key], so when the submission is
    answered with an object that has a [key] member of its own the method
    returns that member under [key], and the key pair is lost. *)
Theorem createAccountWithRandomKey_key_overridden :
  exists tx returned,
    trace Devnet.keyedNode
      (Account.createAccountWithRandomKey "bob" 10 "alice") Devnet.genesis
    = [EvRandomKey Devnet.keyWithRandomSeed;
       EvGetNonce "alice" (inr 7);
       EvSubmit "alice" tx (inr Devnet.keyed)]
    /\ outcome Devnet.keyedNode
         (Account.createAccountWithRandomKey "bob" 10 "alice") Devnet.genesis
       = inr returned
    /\ returned !! "key" = Some (JsStr "ed25519")
    /\ (forall f v, returned !! f = Some v ->
                    v <> JsKeyPair Devnet.keyWithRandomSeed)
    /\ ~ (returned !! "key" = Some (JsKeyPair Devnet.keyWithRandomSeed)
          /\ forall f v, Devnet.keyed !! f = Some v -> returned !! f = Some v).
Proof.
  exists (Devnet.bobTx (Some 10)),
    (spread {["key" := JsKeyPair Devnet.keyWithRandomSeed]} Devnet.keyed).
  split; [vm_compute; reflexivity|].
  split; [vm_compute; reflexivity|].
  assert (Hkey : spread {["key" := JsKeyPair Devnet.keyWithRandomSeed]}
                   Devnet.keyed !! "key" = Some (JsStr "ed25519"))
    by (vm_compute; reflexivity).
  split; [exact Hkey|]. split.
  - intros f v Hf Hv. subst v. unfold spread in Hf.
    apply lookup_union_Some_raw in Hf as [Hf|[Hnone Hf]].
    + unfold Devnet.keyed in Hf.
      apply lookup_insert_Some in Hf as [[_ [=]]|[_ Hf]].
      apply lookup_singleton_Some in Hf as [_ [=]].
    + apply lookup_singleton_Some in Hf as [<- _].
      vm_compute in Hnone. discriminate.
  - intros [Hk _]. rewrite Hkey in Hk. discriminate.
Qed.

(** ** The theorems at work on the in-memory ledger *)

Example createAccount_on_devnet :
  run Devnet.node (Account.createAccount "bob" "Ldp" 1000 "alice")
    Devnet.genesis
  = ([EvGetNonce "alice" (inr 7);
      EvSubmit "alice" (Devnet.bobTx (Some 1000)) (inr Devnet.completed)],
     <["alice" := 8]> Devnet.genesis,
     inr Devnet.completed).
Proof. vm_compute. reflexivity. Qed.

Example createAccount_zero_on_devnet :
  submitted
    (trace Devnet.node (Account.createAccount "bob" "Ldp" 0 "alice")
       Devnet.genesis)
  = [("alice", Devnet.bobTx None)].
Proof. vm_compute. reflexivity. Qed.

Example createAccount_bad_key_on_devnet :
  run Devnet.node (Account.createAccount "bob" "0OIl" 1000 "alice")
    Devnet.genesis
  = ([EvGetNonce "alice" (inr 7)], Devnet.genesis,
     inl (Error "Non-base58 character")).
Proof. vm_compute. reflexivity. Qed.

Example removeAccessKey_congested :
  run Devnet.congested (Account.removeAccessKey "alice" "Ldp") Devnet.genesis
  = ([EvGetNonce "alice" (inr 7);
      EvSubmit "alice"
        (TxDeleteKey (DeleteKeyTransaction.create 7 "alice" [x01; x02; x03]))
        (inl "request timed out")],
     Devnet.genesis,
     inl (Raised "request timed out")).
Proof. vm_compute. reflexivity. Qed.

Example viewAccount_unknown :
  run Devnet.node (Account.viewAccount "carol") Devnet.genesis
  = ([EvViewAccount "carol" (inl "account does not exist")], Devnet.genesis,
     inl (Raised "account does not exist")).
Proof. vm_compute. reflexivity. Qed.

Lemma createAccount_amount_member_witness :
  (nearClient.getNonce Devnet.node "alice" Devnet.genesis
   = (Devnet.genesis, inr 7)
   /\ bs58.decode "Ldp" = Some [x01; x02; x03])
  /\ (exists m,
        submitted
          (trace Devnet.node (Account.createAccount "bob" "Ldp" 0 "alice")
             Devnet.genesis)
        = [("alice", TxCreateAccount m)]
        /\ CreateAccountTransaction.amount m = None)
  /\ (exists m,
        submitted
          (trace Devnet.node (Account.createAccount "bob" "Ldp" 1000 "alice")
             Devnet.genesis)
        = [("alice", TxCreateAccount m)]
        /\ CreateAccountTransaction.amount m = Some 1000).
Proof.
  assert (H1 : nearClient.getNonce Devnet.node "alice" Devnet.genesis
               = (Devnet.genesis, inr 7)) by reflexivity.
  assert (H2 : bs58.decode "Ldp" = Some [x01; x02; x03]) by reflexivity.
  split; [split; [exact H1|exact H2]|]. split.
  - destruct (createAccount_amount_member Devnet.node "bob" "Ldp" 0 "alice"
                Devnet.genesis Devnet.genesis 7 [x01; x02; x03] H1 H2)
      as (m & Hs & _ & _ & _ & _ & Hzero & _).
    exists m. split; [exact Hs|exact (Hzero eq_refl)].
  - destruct (createAccount_amount_member Devnet.node "bob" "Ldp" 1000
                "alice" Devnet.genesis Devnet.genesis 7 [x01; x02; x03]
                H1 H2)
      as (m & Hs & _ & _ & _ & _ & _ & Hpos).
    exists m. split; [exact Hs|]. apply (Hpos 1000 eq_refl). lia.
Defined.

Lemma createAccount_negative_amount_witness :
  -5 < 0
  /\ nearClient.getNonce Devnet.node "alice" Devnet.genesis
     = (Devnet.genesis, inr 7)
  /\ bs58.decode "Ldp" = Some [x01; x02; x03]
  /\ submitted
       (trace Devnet.node (Account.createAccount "bob" "Ldp" (-5) "alice")
          Devnet.genesis)
     = [("alice", Devnet.bobTx (Some (-5)))]
  /\ outcome Devnet.node (Account.createAccount "bob" "Ldp" (-5) "alice")
       Devnet.genesis
     = settle
         (nearClient.signAndSubmitTransaction Devnet.node "alice"
            (Devnet.bobTx (Some (-5))) Devnet.genesis).2.
Proof.
  assert (H1 : -5 < 0) by lia.
  assert (H2 : nearClient.getNonce Devnet.node "alice" Devnet.genesis
               = (Devnet.genesis, inr 7)) by reflexivity.
  assert (H3 : bs58.decode "Ldp" = Some [x01; x02; x03]) by reflexivity.
  split; [exact H1|]. split; [exact H2|]. split; [exact H3|].
  exact (createAccount_negative_amount Devnet.node "bob" "Ldp" (-5) "alice"
           Devnet.genesis Devnet.genesis 7 [x01; x02; x03] H1 H2 H3).
Defined.

Lemma addAccessKey_scope_witness :
  (nearClient.getNonce Devnet.node "alice" Devnet.genesis
   = (Devnet.genesis, inr 7)
   /\ bs58.decode "Ldp" = Some [x01; x02; x03])
  /\ (exists m,
        submitted
          (trace Devnet.node (Account.addAccessKey "alice" "Ldp" "" "" "" 0)
             Devnet.genesis)
        = [("alice", TxAddKey m)]
        /\ AddKeyTransaction.accessKey m = None)
  /\ (exists m k,
        submitted
          (trace Devnet.node
             (Account.addAccessKey "alice" "Ldp" "contractX" "" "" 10)
             Devnet.genesis)
        = [("alice", TxAddKey m)]
        /\ AddKeyTransaction.accessKey m = Some k
        /\ AccessKey.contractId k = Some (StringValue.create "contractX")
        /\ AccessKey.methodName k = None).
Proof.
  assert (H1 : nearClient.getNonce Devnet.node "alice" Devnet.genesis
               = (Devnet.genesis, inr 7)) by reflexivity.
  assert (H2 : bs58.decode "Ldp" = Some [x01; x02; x03]) by reflexivity.
  split; [split; [exact H1|exact H2]|]. split.
  - destruct (addAccessKey_scope Devnet.node "alice" "Ldp" "" "" "" 0
                Devnet.genesis Devnet.genesis 7 [x01; x02; x03] H1 H2)
      as (m & Hs & _ & _ & _ & Hnone & _).
    exists m. split; [exact Hs|exact (Hnone eq_refl)].
  - destruct (addAccessKey_scope Devnet.node "alice" "Ldp" "contractX" ""
                "" 10 Devnet.genesis Devnet.genesis 7 [x01; x02; x03] H1 H2)
      as (m & Hs & _ & _ & _ & _ & Hsome).
    assert (Hc : "contractX" <> "") by discriminate.
    destruct (Hsome Hc eq_refl) as (k & Hk & Hcid & Hmn).
    exists m, k. split; [exact Hs|]. split; [exact Hk|].
    split; [exact Hcid|exact Hmn].
Defined.

Lemma addAccessKey_members_witness :
  ("contractX" <> ""
   /\ nearClient.getNonce Devnet.node "alice" Devnet.genesis
      = (Devnet.genesis, inr 7)
   /\ bs58.decode "Ldp" = Some [x01; x02; x03])
  /\ (exists m k,
        submitted
          (trace Devnet.node
             (Account.addAccessKey "alice" "Ldp" "contractX" "" "" 10)
             Devnet.genesis)
        = [("alice", TxAddKey m)]
        /\ AddKeyTransaction.accessKey m = Some k
        /\ AccessKey.contractId k
           = Some {| StringValue.value := "contractX" |}
        /\ AccessKey.methodName k =
             (if decide ("" = "") then None
              else Some {| BytesValue.value := list_byte_of_string "" |})
        /\ AccessKey.balanceOwner k =
             (if decide ("" = "") then None
              else Some {| StringValue.value := "" |})
        /\ AccessKey.amount k = (if decide (0 < 10) then Some 10 else None))
  /\ (exists m k,
        submitted
          (trace Devnet.node
             (Account.addAccessKey "alice" "Ldp" "contractX" "pay" "app" 0)
             Devnet.genesis)
        = [("alice", TxAddKey m)]
        /\ AddKeyTransaction.accessKey m = Some k
        /\ AccessKey.contractId k
           = Some {| StringValue.value := "contractX" |}
        /\ AccessKey.methodName k =
             (if decide ("pay" = "") then None
              else Some {| BytesValue.value := list_byte_of_string "pay" |})
        /\ AccessKey.balanceOwner k =
             (if decide ("app" = "") then None
              else Some {| StringValue.value := "app" |})
        /\ AccessKey.amount k = (if decide (0 < 0) then Some 0 else None)).
Proof.
  assert (H0 : "contractX" <> "") by discriminate.
  assert (H1 : nearClient.getNonce Devnet.node "alice" Devnet.genesis
               = (Devnet.genesis, inr 7)) by reflexivity.
  assert (H2 : bs58.decode "Ldp" = Some [x01; x02; x03]) by reflexivity.
  split; [split; [exact H0|split; [exact H1|exact H2]]|]. split.
  - exact (addAccessKey_members Devnet.node "alice" "Ldp" "contractX" "" ""
             10 Devnet.genesis Devnet.genesis 7 [x01; x02; x03] H0 H1 H2).
  - exact (addAccessKey_members Devnet.node "alice" "Ldp" "contractX" "pay"
             "app" 0 Devnet.genesis Devnet.genesis 7 [x01; x02; x03]
             H0 H1 H2).
Defined.

Lemma addAccessKey_methodName_ignored_witness :
  "" = ""
  /\ "pay" <> ""
  /\ nearClient.getNonce Devnet.node "alice" Devnet.genesis
     = (Devnet.genesis, inr 7)
  /\ bs58.decode "Ldp" = Some [x01; x02; x03]
  /\ submitted
       (trace Devnet.node (Account.addAccessKey "alice" "Ldp" "" "pay" "" 0)
          Devnet.genesis)
     = [("alice", Devnet.appTx None)]
  /\ outcome Devnet.node (Account.addAccessKey "alice" "Ldp" "" "pay" "" 0)
       Devnet.genesis
     = settle
         (nearClient.signAndSubmitTransaction Devnet.node "alice"
            (Devnet.appTx None) Devnet.genesis).2.
Proof.
  assert (H1 : "" = "") by reflexivity.
  assert (H2 : "pay" <> "") by discriminate.
  assert (H3 : nearClient.getNonce Devnet.node "alice" Devnet.genesis
               = (Devnet.genesis, inr 7)) by reflexivity.
  assert (H4 : bs58.decode "Ldp" = Some [x01; x02; x03]) by reflexivity.
  split; [exact H1|]. split; [exact H2|]. split; [exact H3|].
  split; [exact H4|].
  exact (addAccessKey_methodName_ignored Devnet.node "alice" "Ldp" "" "pay"
           "" 0 Devnet.genesis Devnet.genesis 7 [x01; x02; x03]
           H1 H2 H3 H4).
Defined.


Lemma createAccountWithRandomKey_result_witness :
  exists returned,
    outcome Devnet.node (Account.createAccountWithRandomKey "bob" 10 "alice")
      Devnet.genesis = inr returned
    /\ returned !! "key" = Some (JsKeyPair Devnet.keyWithRandomSeed)
    /\ forall f v, Devnet.completed !! f = Some v -> returned !! f = Some v.
Proof.
  pose proof (createAccountWithRandomKey_result Devnet.node "bob" 10 "alice"
                Devnet.genesis) as H.
  change (nearClient.fromRandomSeed Devnet.node Devnet.genesis)
    with (Devnet.genesis, Devnet.keyWithRandomSeed) in H.
  cbv beta iota zeta in H. destruct H as [_ H].
  assert (Ho : outcome Devnet.node
                 (Account.createAccount "bob"
                    (KeyPair.getPublicKey Devnet.keyWithRandomSeed) 10 "alice")
                 Devnet.genesis = inr Devnet.completed)
    by (vm_compute; reflexivity).
  rewrite Ho in H. destruct H as (returned & Hr & Hall & Hk).
  exists returned. split; [exact Hr|]. split; [|exact Hall].
  apply Hk. vm_compute. reflexivity.
Defined.

(** ** What the ledger-changing methods put on the wire *)

Section Wire.

Context {W E : Type} (client : nearClient.t W E).

Import Account.

Lemma keyed_mutation_mutation (account key : string) (p : Async JsObject) :
  keyed_mutation account key p -> mutation account p.
Proof. destruct 1; constructor. Qed.

(** The common course once more, now with everything the message takes
    from its inputs. *)
Lemma keyed_mutation_course (account key : string) (p : Async JsObject) :
  keyed_mutation account key p ->
  exists build,
    p = (nonce ← await (GetNonce account);
         decoded ← bs58_decode key;
         await (SignAndSubmitTransaction account (build nonce decoded)))
    /\ forall n decoded,
         tx_nonce (build n decoded) = n
         /\ tx_originator (build n decoded) = account
         /\ tx_key (build n decoded) = decoded
         /\ Forall (fun a => a <> 0) (tx_amounts (build n decoded)).
Proof.
  destruct 1 as [a pk amount o|o pk c m fo fa|o pk].
  - exists (fun nonce key =>
              TxCreateAccount
                (if negb (amount =? 0)
                 then CreateAccountTransaction.set_amount amount
                        (CreateAccountTransaction.create nonce o a key)
                 else CreateAccountTransaction.create nonce o a key)).
    split; [reflexivity|]. intros n decoded.
    destruct (Z.eqb_spec amount 0); simpl; repeat split; repeat constructor.
    assumption.
  - eexists (fun nonce key =>
               TxAddKey (AddKeyTransaction.create nonce o key _)).
    split; [reflexivity|]. intros n decoded. simpl.
    do 3 (split; [reflexivity|]).
    destruct (truthy c), (truthy m), (truthy fo), (Z.ltb_spec 0 fa); simpl;
      repeat constructor; lia.
  - exists (fun nonce key =>
              TxDeleteKey (DeleteKeyTransaction.create nonce o key)).
    split; [reflexivity|]. intros n decoded. simpl. repeat split. constructor.
Qed.

(** The submissions of a ledger-changing method, case by case. *)
Lemma keyed_mutation_submitted (account key : string) (p : Async JsObject)
    (w : W) :
  keyed_mutation account key p ->
  match nearClient.getNonce client account w, bs58.decode key with
  | (w1, inr n), Some decoded =>
      exists tx,
        submitted (trace client p w) = [(account, tx)]
        /\ trace client p w
           = [EvGetNonce account (inr n);
              EvSubmit account tx
                (nearClient.signAndSubmitTransaction client account tx w1).2]
        /\ outcome client p w
           = settle (nearClient.signAndSubmitTransaction client account tx w1).2
        /\ tx_nonce tx = n
        /\ tx_originator tx = account
        /\ tx_key tx = decoded
        /\ Forall (fun a => a <> 0) (tx_amounts tx)
  | (w1, r), _ =>
      trace client p w = [EvGetNonce account r]
      /\ final client p w = w1
      /\ outcome client p w
         = match r with
           | inl e => inl (Raised e)
           | inr _ => inl (Error "Non-base58 character")
           end
  end.
Proof.
  intros (build & -> & Hbuild)%keyed_mutation_course.
  unfold trace, outcome, final. rewrite run_mutation.
  destruct (nearClient.getNonce client account w) as [w1 [e|n]].
  - destruct (bs58.decode key); repeat split.
  - destruct (bs58.decode key) as [decoded|]; [|repeat split].
    exists (build n decoded).
    destruct (Hbuild n decoded) as (Hn & Ho & Hk & Ha).
    destruct (nearClient.signAndSubmitTransaction client account
                (build n decoded) w1) as [w2 r].
    repeat split; assumption.
Qed.

End Wire.

Section WireProperties.

Context {W E : Type} (client : nearClient.t W E).

Import Account.

Lemma mutation_keyed (account : string) (p : Async JsObject) :
  mutation account p -> exists key, keyed_mutation account key p.
Proof. destruct 1 as [a pk amount o|o pk c m fo fa|o pk]; exists pk; constructor. Qed.

(** Reading a submission off [keyed_mutation_submitted]. *)
Lemma keyed_mutation_In (account key : string) (p : Async JsObject) (w : W)
    (signer : string) (tx : Transaction) :
  keyed_mutation account key p ->
  In (signer, tx) (submitted (trace client p w)) ->
  signer = account
  /\ (exists n w1, nearClient.getNonce client account w = (w1, inr n)
                   /\ tx_nonce tx = n)
  /\ bs58.decode key = Some (tx_key tx)
  /\ tx_originator tx = account
  /\ Forall (fun a => a <> 0) (tx_amounts tx).
Proof.
  intros Hp Hin. pose proof (keyed_mutation_submitted client account key p w Hp)
    as Hrun.
  destruct (nearClient.getNonce client account w) as [w1 [e|n]].
  - assert (Ht : trace client p w = [EvGetNonce account (inl e)])
      by (destruct (bs58.decode key); apply Hrun).
    rewrite Ht in Hin. destruct Hin.
  - destruct (bs58.decode key) as [decoded|].
    + destruct Hrun as (tx' & Hsub & _ & _ & Hn & Ho & Hk & Ha).
      rewrite Hsub in Hin. destruct Hin as [[= <- <-]|[]].
      split; [reflexivity|]. split; [now exists n, w1|].
      split; [now rewrite Hk|]. split; assumption.
    + destruct Hrun as (Ht & _). rewrite Ht in Hin. destruct Hin.
Qed.

(** X1: once the nonce is fetched and the key decodes, [removeAccessKey]
    submits one DeleteKey message, signed by the owner, that names the
    owner as originator and carries the fetched nonce and the decoded
    key; nothing checks that the key is one of the account's, and the
    method settles as the submission does. *)
Theorem removeAccessKey_payload (ownersAccountId publicKey : string)
    (w w1 : W) (n : Z) (key : list byte) :
  nearClient.getNonce client ownersAccountId w = (w1, inr n) ->
  bs58.decode publicKey = Some key ->
  submitted (trace client (removeAccessKey ownersAccountId publicKey) w)
  = [(ownersAccountId,
      TxDeleteKey
        {| DeleteKeyTransaction.nonce := n;
           DeleteKeyTransaction.originator := ownersAccountId;
           DeleteKeyTransaction.curKey := key |})]
  /\ outcome client (removeAccessKey ownersAccountId publicKey) w
     = settle
         (nearClient.signAndSubmitTransaction client ownersAccountId
            (TxDeleteKey
               {| DeleteKeyTransaction.nonce := n;
                  DeleteKeyTransaction.originator := ownersAccountId;
                  DeleteKeyTransaction.curKey := key |}) w1).2.
Proof.
  intros Hnonce Hkey. unfold trace, outcome, removeAccessKey.
  rewrite (run_mutation client ownersAccountId publicKey
             (fun nonce decoded =>
                TxDeleteKey
                  (DeleteKeyTransaction.create nonce ownersAccountId decoded))).
  rewrite Hnonce, Hkey. unfold DeleteKeyTransaction.create.
  now destruct (nearClient.signAndSubmitTransaction client ownersAccountId _
                  w1).
Qed.

(** X2: when the key string does not decode, [createAccount],
    [addAccessKey] and [removeAccessKey] still fetch the nonce first, and
    that is the only call they make: nothing is submitted, the state is
    the one the fetch left, and the method is rejected with what the fetch
    was rejected with, or else with the decoder's error. *)
Theorem undecodable_key_stops (account key : string) (p : Async JsObject)
    (w : W) :
  keyed_mutation account key p ->
  bs58.decode key = None ->
  trace client p w
  = [EvGetNonce account (nearClient.getNonce client account w).2]
  /\ submitted (trace client p w) = []
  /\ final client p w = (nearClient.getNonce client account w).1
  /\ outcome client p w
     = match (nearClient.getNonce client account w).2 with
       | inl e => inl (Raised e)
       | inr _ => inl (Error "Non-base58 character")
       end.
Proof.
  intros Hp Hkey.
  pose proof (keyed_mutation_submitted client account key p w Hp) as Hrun.
  rewrite Hkey in Hrun.
  destruct (nearClient.getNonce client account w) as [w1 [e|n]];
    destruct Hrun as (Ht & Hf & Ho); rewrite Ht; simpl; auto.
Qed.

(** X3: every message of [createAccount], [addAccessKey] and
    [removeAccessKey] is handed over for signing by the very account it
    names as originator, the one whose nonce was fetched. *)
Theorem signer_is_originator (account : string) (p : Async JsObject)
    (w : W) (signer : string) (tx : Transaction) :
  mutation account p ->
  In (signer, tx) (submitted (trace client p w)) ->
  signer = account /\ tx_originator tx = account.
Proof.
  intros [key Hp]%mutation_keyed Hin.
  destruct (keyed_mutation_In account key p w signer tx Hp Hin)
    as (Hs & _ & _ & Ho & _).
  now split.
Qed.

(** X4: the key bytes in a submitted message are the decoding of the key
    string the caller passed, and [encodeBufferInBs58] of them is that
    string again. *)
Theorem wire_key_round_trip (account key : string) (p : Async JsObject)
    (w : W) (signer : string) (tx : Transaction) :
  keyed_mutation account key p ->
  In (signer, tx) (submitted (trace client p w)) ->
  bs58.decode key = Some (tx_key tx)
  /\ KeyPair.encodeBufferInBs58 (tx_key tx) = key.
Proof.
  intros Hp Hin.
  destruct (keyed_mutation_In account key p w signer tx Hp Hin)
    as (_ & _ & Hk & _).
  split; [assumption|]. now apply encode_decode.
Qed.

(** X5: a ledger-changing method submits at most once, and it does submit
    exactly when the nonce fetch is answered and the key string decodes:
    no other argument is checked on this side. *)
Theorem submits_iff_nonce_and_key (account key : string)
    (p : Async JsObject) (w : W) :
  keyed_mutation account key p ->
  (length (submitted (trace client p w)) <= 1)%nat
  /\ (submitted (trace client p w) <> [] <->
      (exists n w1, nearClient.getNonce client account w = (w1, inr n))
      /\ is_Some (bs58.decode key)).
Proof.
  intros Hp.
  pose proof (keyed_mutation_submitted client account key p w Hp) as Hrun.
  destruct (nearClient.getNonce client account w) as [w1 [e|n]].
  - assert (Ht : trace client p w = [EvGetNonce account (inl e)])
      by (destruct (bs58.decode key); apply Hrun).
    rewrite Ht. simpl. split; [lia|]. split; [congruence|].
    intros [(n & w2 & [=]) _].
  - destruct (bs58.decode key) as [decoded|].
    + destruct Hrun as (tx & -> & _). simpl. split; [lia|].
      split; [|discriminate]. intros _. split; [now exists n, w1|eauto].
    + destruct Hrun as (-> & _). simpl. split; [lia|].
      split; [congruence|]. intros [_ [x [=]]].
Qed.

(** X6: no message that leaves this layer has an [amount] member that is
    zero: [createAccount] leaves a zero amount out, and so does the access
    key of [addAccessKey]. *)
Theorem zero_amount_never_sent (account : string) (p : Async JsObject)
    (w : W) (signer : string) (tx : Transaction) :
  mutation account p ->
  In (signer, tx) (submitted (trace client p w)) ->
  Forall (fun a => a <> 0) (tx_amounts tx).
Proof.
  intros [key Hp]%mutation_keyed Hin.
  now destruct (keyed_mutation_In account key p w signer tx Hp Hin)
    as (_ & _ & _ & _ & Ha).
Qed.

End WireProperties.

Section AccessKeys.

Context {W E : Type} (client : nearClient.t W E).

Import Account.

(** X7: an access key that [addAccessKey] sends always has a non-empty
    [contractId]; its [methodName] and [balanceOwner], when present, are
    not empty, and its [amount], when present, is positive.  A key with a
    method restriction but no contract, or with an explicit zero or
    negative funding, is never built. *)
Theorem accessKey_well_formed (ownersAccountId newPublicKey contractId
    methodName fundingOwner : string) (fundingAmount : Z) (w : W)
    (signer : string) (m : AddKeyTransaction.t) (k : AccessKey.t) :
  In (signer, TxAddKey m)
     (submitted
        (trace client
           (addAccessKey ownersAccountId newPublicKey contractId methodName
              fundingOwner fundingAmount) w)) ->
  AddKeyTransaction.accessKey m = Some k ->
  (exists c, AccessKey.contractId k = Some c /\ StringValue.value c <> "")
  /\ (forall v, AccessKey.methodName k = Some v -> BytesValue.value v <> [])
  /\ (forall v, AccessKey.balanceOwner k = Some v -> StringValue.value v <> "")
  /\ (forall a, AccessKey.amount k = Some a -> 0 < a).
Proof.
  unfold trace. rewrite addAccessKey_run.
  destruct (nearClient.getNonce client ownersAccountId w) as [w1 [e|n]];
    [intros []|].
  destruct (bs58.decode newPublicKey) as [key|]; [|intros []].
  cbv zeta.
  match goal with
  | |- context [nearClient.signAndSubmitTransaction client ?a ?t w1] =>
      destruct (nearClient.signAndSubmitTransaction client a t w1) as [w2 r]
  end.
  intros [[= _ <-]|[]]. simpl.
  destruct contractId as [|c0 cs]; simpl; [discriminate|].
  intros [= <-]. simpl. split; [eexists; split; [reflexivity|discriminate]|].
  split; [|split].
  - destruct methodName; simpl; intros v [= <-]; discriminate.
  - destruct fundingOwner; simpl; intros v [= <-]; discriminate.
  - destruct (Z.ltb_spec 0 fundingAmount); intros a [= <-]. assumption.
Qed.

End AccessKeys.

(** X8: what [createAccount], [addAccessKey] and [removeAccessKey] submit
    depends on their arguments and on the fetched nonce alone: against two
    collaborators, in any two states, that answer the nonce fetch with the
    same number, the same messages go out. *)
Theorem payload_from_arguments_and_nonce {W1 E1 W2 E2 : Type}
    (client1 : nearClient.t W1 E1) (client2 : nearClient.t W2 E2)
    (account : string) (p : Async JsObject)
    (w1 w1' : W1) (w2 w2' : W2) (n : Z) :
  Account.mutation account p ->
  nearClient.getNonce client1 account w1 = (w1', inr n) ->
  nearClient.getNonce client2 account w2 = (w2', inr n) ->
  submitted (trace client1 p w1) = submitted (trace client2 p w2).
Proof.
  intros (key & build & -> & _)%mutation_course Hn1 Hn2.
  unfold trace. rewrite !run_mutation, Hn1, Hn2.
  destruct (bs58.decode key) as [decoded|]; [|reflexivity].
  destruct (nearClient.signAndSubmitTransaction client1 account _ w1').
  destruct (nearClient.signAndSubmitTransaction client2 account _ w2').
  reflexivity.
Qed.

(** ** The read-only methods *)

Section Queries.

Context {W E : Type} (client : nearClient.t W E).

Import Account.

Local Abbreviation accessKeyQuery accountId :=
  [JString ("access_key/" +:+ accountId); JString ""; JString "0";
   JBool false].

Local Abbreviation made_from decoded :=
  (fun key app =>
     exists entry, Object_get key decoded = Some entry
                   /\ app = authorizedApp entry).

(** The whole course of [getAccountDetails]. *)
Lemma getAccountDetails_cases (accountId : string) (w : W) :
  match nearClient.jsonRpcRequest client "abci_query"
          (accessKeyQuery accountId) w with
  | (w1, inl e) =>
      run client (getAccountDetails accountId) w
      = ([EvJsonRpc "abci_query" (accessKeyQuery accountId) (inl e)], w1,
         inl (Raised e))
  | (w1, inr response) =>
      let value := Response.value (Response.response response) in
      match nearClient.decodeResponseValue client value w1 with
      | (w2, inl e) =>
          run client (getAccountDetails accountId) w
          = ([EvJsonRpc "abci_query" (accessKeyQuery accountId) (inr response);
              EvDecode value (inl e)], w2, inl (Raised e))
      | (w2, inr decoded) =>
          exists apps,
            run client (getAccountDetails accountId) w
            = ([EvJsonRpc "abci_query" (accessKeyQuery accountId)
                  (inr response);
                EvDecode value (inr decoded)], w2,
               inr {| AccountDetails.authorizedApps := apps;
                      AccountDetails.transactions := [] |})
            /\ Forall2 (made_from decoded) (Object_keys decoded) apps
      end
  end.
Proof.
  unfold getAccountDetails. change (mbind ?f ?p) with (bind p f). simpl.
  destruct (nearClient.jsonRpcRequest client _ _ w) as [w1 [e|response]];
    [reflexivity|].
  destruct (nearClient.decodeResponseValue client _ w1) as [w2 [e|decoded]];
    [reflexivity|].
  change (mbind ?f ?p) with (bind p f). rewrite run_bind.
  destruct (forEach_keys client decoded (Object_keys decoded)
              (fun k Hk => Hk) [] w2) as (apps & Hrun & Hall).
  pose proof (forEach_silent client decoded (Object_keys decoded) [] w2)
    as Hsilent.
  destruct (run client (forEach (Object_keys decoded) _ _) w2)
    as [[evs w3] o].
  simpl in *. injection Hsilent as -> ->. subst o.
  exists apps. split; [reflexivity|exact Hall].
Qed.

Lemma queries_submit_nothing (evs : list (Event E)) :
  forallb is_query evs = true -> submitted evs = [].
Proof.
  induction evs as [|ev evs IH]; [reflexivity|].
  simpl. intros [Hev Hevs]%andb_prop.
  destruct ev; try discriminate; now apply IH.
Qed.

(** X9: [viewAccount] and [getAccountDetails] only read: every call they
    make is a [viewAccount], [jsonRpcRequest] or [decodeResponseValue];
    they fetch no nonce, draw no key and submit nothing. *)
Theorem queries_only_read (accountId : string) (w : W) :
  (forallb is_query (trace client (viewAccount accountId) w) = true
   /\ submitted (trace client (viewAccount accountId) w) = [])
  /\ (forallb is_query (trace client (getAccountDetails accountId) w) = true
      /\ submitted (trace client (getAccountDetails accountId) w) = []).
Proof.
  assert (Hview : forallb is_query (trace client (viewAccount accountId) w)
                  = true).
  { unfold trace. simpl.
    now destruct (nearClient.viewAccount client accountId w) as [w1 [e|x]]. }
  assert (Hdetails : forallb is_query
                       (trace client (getAccountDetails accountId) w) = true).
  { unfold trace. pose proof (getAccountDetails_cases accountId w) as Hrun.
    destruct (nearClient.jsonRpcRequest client _ _ w) as [w1 [e|response]];
      [now rewrite Hrun|].
    cbv zeta in Hrun.
    destruct (nearClient.decodeResponseValue client _ w1)
      as [w2 [e|decoded]]; [now rewrite Hrun|].
    destruct Hrun as (apps & -> & _). reflexivity. }
  split; (split; [assumption|now apply queries_submit_nothing]).
Qed.

(** X10: [getAccountDetails] asks once, for [abci_query] on the path
    [access_key/<accountId>] with the fixed parameters; if that is
    rejected the decoder is never called; otherwise the decoder is called
    once, on the [value] of the answer, and no call follows it. *)
Theorem getAccountDetails_calls (accountId : string) (w : W) :
  trace client (getAccountDetails accountId) w =
  match nearClient.jsonRpcRequest client "abci_query"
          [JString ("access_key/" +:+ accountId); JString ""; JString "0";
           JBool false] w with
  | (w1, inl e) =>
      [EvJsonRpc "abci_query"
         [JString ("access_key/" +:+ accountId); JString ""; JString "0";
          JBool false] (inl e)]
  | (w1, inr response) =>
      [EvJsonRpc "abci_query"
         [JString ("access_key/" +:+ accountId); JString ""; JString "0";
          JBool false] (inr response);
       EvDecode (Response.value (Response.response response))
         (nearClient.decodeResponseValue client
            (Response.value (Response.response response)) w1).2]
  end.
Proof.
  unfold trace. pose proof (getAccountDetails_cases accountId w) as Hrun.
  destruct (nearClient.jsonRpcRequest client _ _ w) as [w1 [e|response]];
    [now rewrite Hrun|].
  cbv zeta in Hrun.
  destruct (nearClient.decodeResponseValue client _ w1) as [w2 [e|decoded]];
    [now rewrite Hrun|].
  now destruct Hrun as (apps & -> & _).
Qed.

(** What a returning [getAccountDetails] was answered with. *)
Lemma getAccountDetails_returned (accountId : string) (w : W)
    (details : AccountDetails.t) :
  outcome client (getAccountDetails accountId) w = inr details ->
  exists value decoded,
    In (EvDecode value (inr decoded))
       (trace client (getAccountDetails accountId) w)
    /\ Forall2 (made_from decoded) (Object_keys decoded)
         (AccountDetails.authorizedApps details).
Proof.
  unfold outcome, trace.
  pose proof (getAccountDetails_cases accountId w) as Hrun.
  destruct (nearClient.jsonRpcRequest client _ _ w) as [w1 [e|response]];
    [now rewrite Hrun|].
  cbv zeta in Hrun.
  destruct (nearClient.decodeResponseValue client _ w1) as [w2 [e|decoded]];
    [now rewrite Hrun|].
  destruct Hrun as (apps & -> & Hall). simpl. intros [= <-].
  exists (Response.value (Response.response response)), decoded.
  split; [right; left; reflexivity|exact Hall].
Qed.

(** X11: a key listed by [getAccountDetails] can be handed back as it is:
    the listed [publicKey] string decodes to the key bytes of the entry it
    was made from, so [removeAccessKey] with that string, once its nonce
    is fetched, submits a DeleteKey message for exactly those bytes. *)
Theorem listed_key_can_be_removed (accountId : string) (w : W)
    (details : AccountDetails.t) (app : AuthorizedApp.t) :
  outcome client (getAccountDetails accountId) w = inr details ->
  In app (AccountDetails.authorizedApps details) ->
  exists value decoded key entry,
    In (EvDecode value (inr decoded))
       (trace client (getAccountDetails accountId) w)
    /\ Object_get key decoded = Some entry
    /\ bs58.decode (AuthorizedApp.publicKey app) = Some entry.1
    /\ forall (owner : string) (w' w1 : W) (n : Z),
         nearClient.getNonce client owner w' = (w1, inr n) ->
         submitted
           (trace client
              (removeAccessKey owner (AuthorizedApp.publicKey app)) w')
         = [(owner,
             TxDeleteKey
               {| DeleteKeyTransaction.nonce := n;
                  DeleteKeyTransaction.originator := owner;
                  DeleteKeyTransaction.curKey := entry.1 |})].
Proof.
  intros (value & decoded & Hev & Hall)%getAccountDetails_returned Hin.
  apply list_elem_of_In, list_elem_of_lookup in Hin as [i Hi].
  destruct (Forall2_lookup_r _ _ _ _ _ Hall Hi)
    as (key & _ & entry & Hget & ->).
  exists value, decoded, key, entry.
  assert (Hdec : bs58.decode (AuthorizedApp.publicKey (authorizedApp entry))
                 = Some entry.1) by apply decode_encode.
  do 3 (split; [assumption|]).
  intros owner w' w1 n Hnonce. unfold trace, removeAccessKey.
  rewrite (run_mutation client owner _
             (fun nonce decoded =>
                TxDeleteKey (DeleteKeyTransaction.create nonce owner decoded))).
  rewrite Hnonce, Hdec. unfold DeleteKeyTransaction.create.
  now destruct (nearClient.signAndSubmitTransaction client owner _ w1).
Qed.

(** X12: a returning [getAccountDetails] lists as many apps as the decoded
    answer has keys, none when the answer is empty: nothing is filtered
    out, whatever [contract_id] and [amount] hold. *)
Theorem getAccountDetails_count (accountId : string) (w : W)
    (details : AccountDetails.t) :
  outcome client (getAccountDetails accountId) w = inr details ->
  exists value decoded,
    In (EvDecode value (inr decoded))
       (trace client (getAccountDetails accountId) w)
    /\ length (AccountDetails.authorizedApps details) = length decoded
    /\ (decoded = [] -> AccountDetails.authorizedApps details = []).
Proof.
  intros (value & decoded & Hev & Hall)%getAccountDetails_returned.
  exists value, decoded. split; [assumption|].
  apply Forall2_length in Hall. unfold Object_keys in Hall.
  rewrite length_map in Hall. split; [now symmetry|].
  intros ->. simpl in Hall. now destruct (AccountDetails.authorizedApps details).
Qed.

End Queries.

(** ** More on [createAccountWithRandomKey] *)

Section RandomKeyProperties.

Context {W E : Type} (client : nearClient.t W E).

Import Account.

(** X14: [createAccountWithRandomKey] is never rejected with an [Error]
    of this layer: the key string it passes on is one it has just
    encoded, so the decoding in [createAccount] cannot throw; the only
    rejections are those of the nonce fetch and of the submission. *)
Theorem createAccountWithRandomKey_no_Error (newAccountId : string)
    (amount : Z) (originatorAccountId message : string) (w : W) :
  outcome client
    (createAccountWithRandomKey newAccountId amount originatorAccountId) w
  <> inl (Error message).
Proof.
  unfold outcome. rewrite createAccountWithRandomKey_run.
  destruct (nearClient.fromRandomSeed client w) as [w1 k].
  rewrite createAccount_run.
  destruct (nearClient.getNonce client originatorAccountId w1)
    as [w2 [e|n]]; [discriminate|].
  unfold KeyPair.getPublicKey. rewrite decode_encode. cbv zeta.
  match goal with
  | |- context [nearClient.signAndSubmitTransaction client ?a ?t w2] =>
      destruct (nearClient.signAndSubmitTransaction client a t w2)
        as [w3 [e|x]]
  end; discriminate.
Qed.

(** X15: the object [createAccountWithRandomKey] returns has the members
    of the submission result and [key], and no other; every member not
    named [key] is the submission result's, unchanged. *)
Theorem createAccountWithRandomKey_members (newAccountId : string)
    (amount : Z) (originatorAccountId : string) (w w1 : W)
    (keyWithRandomSeed : KeyPair.t) (createAccountResult : JsObject) :
  nearClient.fromRandomSeed client w = (w1, keyWithRandomSeed) ->
  outcome client
    (createAccount newAccountId (KeyPair.getPublicKey keyWithRandomSeed)
       amount originatorAccountId) w1 = inr createAccountResult ->
  exists returned : JsObject,
    outcome client
      (createAccountWithRandomKey newAccountId amount originatorAccountId) w
    = inr returned
    /\ dom returned = {["key"]} ∪ dom createAccountResult
    /\ forall f, f <> "key" -> returned !! f = createAccountResult !! f.
Proof.
  unfold outcome. intros Hseed Hcreate.
  rewrite createAccountWithRandomKey_run, Hseed.
  destruct (run client (createAccount _ _ _ _) w1) as [[evs w2] o].
  simpl in Hcreate. subst o. simpl.
  eexists. split; [reflexivity|]. split.
  - unfold spread. rewrite dom_union_L, dom_singleton_L.
    apply (comm_L (∪)).
  - intros f Hf. rewrite spread_lookup.
    destruct (createAccountResult !! f); [reflexivity|].
    now apply lookup_singleton_ne.
Qed.

End RandomKeyProperties.

(** ** More on base58 *)

Lemma index_of_found (c : ascii) (l : list ascii) (d : N) :
  bs58.index_of c l = Some d ->
  existsb (fun a => Ascii.eqb a c) l = true.
Proof.
  revert d. induction l as [|a l IH]; intros d; simpl; [discriminate|].
  destruct (Ascii.eqb a c); [reflexivity|]. simpl.
  destruct (bs58.index_of c l) as [d'|]; [|discriminate]. intros _. now apply (IH d').
Qed.

Lemma digits_of_chars_alphabet (cs : list ascii) (ds : list N) :
  bs58.digits_of_chars cs = Some ds -> forallb bs58.in_alphabet cs = true.
Proof.
  revert ds. induction cs as [|c cs IH]; intros ds; simpl; [reflexivity|].
  destruct (bs58.digit_of_char c) as [d|] eqn:Hd; [|discriminate].
  destruct (bs58.digits_of_chars cs) as [ds'|]; [|discriminate].
  intros _. apply andb_true_intro. split; [|now apply (IH ds')].
  now apply (index_of_found _ _ d).
Qed.

(** X17: what [encodeBufferInBs58] makes of a buffer is a valid base58
    string, and [bs58.decode] gives the buffer back, leading zero bytes
    included (base58 as modelled from the spec). *)
Theorem bs58_encode_then_decode (buffer : list byte) :
  bs58.valid (KeyPair.encodeBufferInBs58 buffer) = true
  /\ bs58.decode (KeyPair.encodeBufferInBs58 buffer) = Some buffer.
Proof.
  pose proof (decode_encode buffer) as Hdec.
  split; [|exact Hdec].
  unfold KeyPair.encodeBufferInBs58, bs58.valid. unfold bs58.decode in Hdec.
  destruct (bs58.digits_of_chars (list_ascii_of_string (bs58.encode buffer)))
    as [ds|] eqn:Hds; [|discriminate].
  now apply (digits_of_chars_alphabet _ ds).
Qed.

(** ** The nonce, and what becomes of a rejected call *)

Section Propagation.

Context {W E : Type} (client : nearClient.t W E).

Import Account.

(** C4: [createAccount], [addAccessKey] and [removeAccessKey] always start
    with the nonce fetch for the originating account, before anything is
    built.  When it is answered and the key decodes, the one call that
    follows is the submission, signed by that account, of a message whose
    nonce is exactly the number the fetch answered with; and no submission
    is ever made otherwise. *)
Theorem nonce_fetched_then_used (account key : string) (p : Async JsObject)
    (w : W) :
  keyed_mutation account key p ->
  exists rest,
    trace client p w
    = EvGetNonce account (nearClient.getNonce client account w).2 :: rest
    /\ (forall n w1 decoded,
          nearClient.getNonce client account w = (w1, inr n) ->
          bs58.decode key = Some decoded ->
          exists tx,
            rest = [EvSubmit account tx
                      (nearClient.signAndSubmitTransaction client account tx
                         w1).2]
            /\ tx_nonce tx = n)
    /\ (forall signer tx r,
          In (EvSubmit signer tx r) rest ->
          exists n w1,
            nearClient.getNonce client account w = (w1, inr n)
            /\ rest = [EvSubmit signer tx r]
            /\ signer = account
            /\ tx_nonce tx = n).
Proof.
  intros (build & -> & Hbuild)%keyed_mutation_course.
  unfold trace. rewrite run_mutation.
  destruct (nearClient.getNonce client account w) as [w1 [e|n]].
  - exists []. split; [reflexivity|]. split; [intros ? ? ? [=]|intros ? ? ? []].
  - destruct (bs58.decode key) as [decoded|].
    + destruct (Hbuild n decoded) as (Hn & _).
      destruct (nearClient.signAndSubmitTransaction client account
                  (build n decoded) w1) as [w2 r] eqn:Hsub.
      exists [EvSubmit account (build n decoded) r].
      split; [reflexivity|]. split.
      * intros n' w1' decoded' [= <- <-] [= <-].
        exists (build n decoded). rewrite Hsub. now split.
      * intros signer tx r' [[= <- <- <-]|[]]. now exists n, w1.
    + exists []. split; [reflexivity|].
      split; [intros ? ? ? _ [=]|intros ? ? ? []].
Qed.

(** C7: in [createAccount], [addAccessKey], [removeAccessKey],
    [viewAccount] and [getAccountDetails], a collaborator call that is
    rejected is the last call made, every call before it was answered,
    the method is rejected with the very same value, and at most two calls
    are made in all.  The calls are really made: a rejected nonce fetch is
    the only call of a ledger-changing method and rejects it; a rejected
    submission comes right after the answered fetch and rejects it; and
    the same holds for the calls of the two queries. *)
Theorem errors_propagate :
  (forall (A : Type) (p : Async A) (w : W) (ev : Event E) (e : E),
     operation p ->
     In ev (trace client p w) ->
     failure ev = Some e ->
     outcome client p w = inl (Raised e)
     /\ (exists pre, trace client p w = pre ++ [ev]
                     /\ Forall (fun ev' => failure ev' = None) pre)
     /\ (length (trace client p w) <= 2)%nat)
  /\ (forall (account key : string) (p : Async JsObject) (w : W),
        keyed_mutation account key p ->
        (forall w1 e,
           nearClient.getNonce client account w = (w1, inl e) ->
           run client p w
           = ([EvGetNonce account (inl e)], w1, inl (Raised e)))
        /\ (forall w1 n decoded,
              nearClient.getNonce client account w = (w1, inr n) ->
              bs58.decode key = Some decoded ->
              exists tx,
                tx_nonce tx = n
                /\ tx_originator tx = account
                /\ tx_key tx = decoded
                /\ forall w2 e,
                     nearClient.signAndSubmitTransaction client account tx w1
                     = (w2, inl e) ->
                     run client p w
                     = ([EvGetNonce account (inr n);
                         EvSubmit account tx (inl e)], w2,
                        inl (Raised e))))
  /\ (forall (accountId : string) (w w1 : W) (e : E),
        nearClient.viewAccount client accountId w = (w1, inl e) ->
        run client (viewAccount accountId) w
        = ([EvViewAccount accountId (inl e)], w1, inl (Raised e)))
  /\ (forall (accountId : string) (w : W),
        (forall w1 e,
           nearClient.jsonRpcRequest client "abci_query"
             [JString ("access_key/" +:+ accountId); JString "";
              JString "0"; JBool false] w = (w1, inl e) ->
           run client (getAccountDetails accountId) w
           = ([EvJsonRpc "abci_query"
                 [JString ("access_key/" +:+ accountId); JString "";
                  JString "0"; JBool false] (inl e)], w1, inl (Raised e)))
        /\ (forall w1 response w2 e,
              nearClient.jsonRpcRequest client "abci_query"
                [JString ("access_key/" +:+ accountId); JString "";
                 JString "0"; JBool false] w = (w1, inr response) ->
              nearClient.decodeResponseValue client
                (Response.value (Response.response response)) w1
              = (w2, inl e) ->
              run client (getAccountDetails accountId) w
              = ([EvJsonRpc "abci_query"
                    [JString ("access_key/" +:+ accountId); JString "";
                     JString "0"; JBool false] (inr response);
                  EvDecode (Response.value (Response.response response))
                    (inl e)], w2, inl (Raised e)))).
Proof.
  split; [|split; [|split]].
  - intros A p w ev e Hop Hin Hfail.
    destruct (rejection_is_final client p (operation_handler_free p Hop)
                w ev e Hin Hfail) as [Ho Hpre].
    split; [assumption|]. split; [assumption|].
    now apply operation_calls.
  - intros account key p w (build & -> & Hbuild)%keyed_mutation_course.
    rewrite run_mutation. split.
    + intros w1 e ->. reflexivity.
    + intros w1 n decoded -> ->.
      destruct (Hbuild n decoded) as (Hn & Ho & Hk & _).
      exists (build n decoded). do 3 (split; [assumption|]).
      intros w2 e ->. reflexivity.
  - intros accountId w w1 e Hview. simpl. now rewrite Hview.
  - intros accountId w.
    pose proof (getAccountDetails_cases client accountId w) as Hrun.
    split.
    + intros w1 e Hrpc. now rewrite Hrpc in Hrun.
    + intros w1 response w2 e Hrpc Hdec. rewrite Hrpc in Hrun.
      cbv zeta in Hrun. now rewrite Hdec in Hrun.
Qed.

End Propagation.

(** A body with a [try] need not pass a rejection on: the fallback
    variant answers with the empty object although the call was
    rejected. *)
Example fallback_swallows_rejection :
  run Devnet.node (Scenario.viewAccount_with_fallback "carol") Devnet.genesis
  = ([EvViewAccount "carol" (inl "account does not exist")], Devnet.genesis,
     inr ∅).
Proof. vm_compute. reflexivity. Qed.

(** ** The further properties at work on the in-memory ledger *)

Lemma removeAccessKey_payload_witness :
  nearClient.getNonce Devnet.node "alice" Devnet.genesis
  = (Devnet.genesis, inr 7)
  /\ bs58.decode "Ldp" = Some [x01; x02; x03]
  /\ submitted
       (trace Devnet.node (Account.removeAccessKey "alice" "Ldp")
          Devnet.genesis)
     = [("alice",
         TxDeleteKey
           {| DeleteKeyTransaction.nonce := 7;
              DeleteKeyTransaction.originator := "alice";
              DeleteKeyTransaction.curKey := [x01; x02; x03] |})]
  /\ outcome Devnet.node (Account.removeAccessKey "alice" "Ldp")
       Devnet.genesis
     = settle
         (nearClient.signAndSubmitTransaction Devnet.node "alice"
            (TxDeleteKey
               {| DeleteKeyTransaction.nonce := 7;
                  DeleteKeyTransaction.originator := "alice";
                  DeleteKeyTransaction.curKey := [x01; x02; x03] |})
            Devnet.genesis).2.
Proof.
  assert (H1 : nearClient.getNonce Devnet.node "alice" Devnet.genesis
               = (Devnet.genesis, inr 7)) by reflexivity.
  assert (H2 : bs58.decode "Ldp" = Some [x01; x02; x03]) by reflexivity.
  split; [exact H1|]. split; [exact H2|].
  exact (removeAccessKey_payload Devnet.node "alice" "Ldp" Devnet.genesis
           Devnet.genesis 7 [x01; x02; x03] H1 H2).
Defined.

Lemma undecodable_key_stops_witness :
  keyed_mutation "alice" "0OIl"
    (Account.createAccount "bob" "0OIl" 1000 "alice")
  /\ bs58.decode "0OIl" = None
  /\ trace Devnet.node (Account.createAccount "bob" "0OIl" 1000 "alice")
       Devnet.genesis
     = [EvGetNonce "alice"
          (nearClient.getNonce Devnet.node "alice" Devnet.genesis).2]
  /\ submitted
       (trace Devnet.node (Account.createAccount "bob" "0OIl" 1000 "alice")
          Devnet.genesis) = []
  /\ final Devnet.node (Account.createAccount "bob" "0OIl" 1000 "alice")
       Devnet.genesis
     = (nearClient.getNonce Devnet.node "alice" Devnet.genesis).1
  /\ outcome Devnet.node (Account.createAccount "bob" "0OIl" 1000 "alice")
       Devnet.genesis
     = match (nearClient.getNonce Devnet.node "alice" Devnet.genesis).2 with
       | inl e => inl (Raised e)
       | inr _ => inl (Error "Non-base58 character")
       end.
Proof.
  assert (H1 : keyed_mutation "alice" "0OIl"
                 (Account.createAccount "bob" "0OIl" 1000 "alice"))
    by constructor.
  assert (H2 : bs58.decode "0OIl" = None) by reflexivity.
  split; [exact H1|]. split; [exact H2|].
  exact (undecodable_key_stops Devnet.node "alice" "0OIl"
           (Account.createAccount "bob" "0OIl" 1000 "alice") Devnet.genesis
           H1 H2).
Defined.

Lemma signer_is_originator_witness :
  Account.mutation "alice"
    (Account.addAccessKey "alice" "Ldp" "contractX" "" "" 10)
  /\ In ("alice", Devnet.appTx (Some Devnet.contractKey))
        (submitted
           (trace Devnet.node
              (Account.addAccessKey "alice" "Ldp" "contractX" "" "" 10)
              Devnet.genesis))
  /\ "alice" = "alice"
  /\ tx_originator (Devnet.appTx (Some Devnet.contractKey)) = "alice".
Proof.
  assert (H1 : Account.mutation "alice"
                 (Account.addAccessKey "alice" "Ldp" "contractX" "" "" 10))
    by constructor.
  assert (H2 : In ("alice", Devnet.appTx (Some Devnet.contractKey))
                  (submitted
                     (trace Devnet.node
                        (Account.addAccessKey "alice" "Ldp" "contractX" ""
                           "" 10)
                        Devnet.genesis)))
    by (vm_compute; left; reflexivity).
  split; [exact H1|]. split; [exact H2|].
  exact (signer_is_originator Devnet.node "alice"
           (Account.addAccessKey "alice" "Ldp" "contractX" "" "" 10)
           Devnet.genesis "alice" (Devnet.appTx (Some Devnet.contractKey))
           H1 H2).
Defined.

Lemma wire_key_round_trip_witness :
  keyed_mutation "alice" "Ldp"
    (Account.createAccount "bob" "Ldp" 1000 "alice")
  /\ In ("alice", Devnet.bobTx (Some 1000))
        (submitted
           (trace Devnet.node (Account.createAccount "bob" "Ldp" 1000 "alice")
              Devnet.genesis))
  /\ bs58.decode "Ldp" = Some (tx_key (Devnet.bobTx (Some 1000)))
  /\ KeyPair.encodeBufferInBs58 (tx_key (Devnet.bobTx (Some 1000))) = "Ldp".
Proof.
  assert (H1 : keyed_mutation "alice" "Ldp"
                 (Account.createAccount "bob" "Ldp" 1000 "alice"))
    by constructor.
  assert (H2 : In ("alice", Devnet.bobTx (Some 1000))
                  (submitted
                     (trace Devnet.node
                        (Account.createAccount "bob" "Ldp" 1000 "alice")
                        Devnet.genesis)))
    by (vm_compute; left; reflexivity).
  split; [exact H1|]. split; [exact H2|].
  exact (wire_key_round_trip Devnet.node "alice" "Ldp"
           (Account.createAccount "bob" "Ldp" 1000 "alice") Devnet.genesis
           "alice" (Devnet.bobTx (Some 1000)) H1 H2).
Defined.

Lemma submits_iff_nonce_and_key_witness :
  keyed_mutation "alice" "Ldp" (Account.removeAccessKey "alice" "Ldp")
  /\ (length
        (submitted
           (trace Devnet.node (Account.removeAccessKey "alice" "Ldp")
              Devnet.genesis)) <= 1)%nat
  /\ (submitted
        (trace Devnet.node (Account.removeAccessKey "alice" "Ldp")
           Devnet.genesis) <> [] <->
      (exists n w1,
         nearClient.getNonce Devnet.node "alice" Devnet.genesis = (w1, inr n))
      /\ is_Some (bs58.decode "Ldp")).
Proof.
  assert (H1 : keyed_mutation "alice" "Ldp"
                 (Account.removeAccessKey "alice" "Ldp")) by constructor.
  split; [exact H1|].
  exact (submits_iff_nonce_and_key Devnet.node "alice" "Ldp"
           (Account.removeAccessKey "alice" "Ldp") Devnet.genesis H1).
Defined.

Lemma zero_amount_never_sent_witness :
  Account.mutation "alice" (Account.createAccount "bob" "Ldp" 0 "alice")
  /\ In ("alice", Devnet.bobTx None)
        (submitted
           (trace Devnet.node (Account.createAccount "bob" "Ldp" 0 "alice")
              Devnet.genesis))
  /\ Forall (fun a => a <> 0) (tx_amounts (Devnet.bobTx None)).
Proof.
  assert (H1 : Account.mutation "alice"
                 (Account.createAccount "bob" "Ldp" 0 "alice"))
    by constructor.
  assert (H2 : In ("alice", Devnet.bobTx None)
                  (submitted
                     (trace Devnet.node
                        (Account.createAccount "bob" "Ldp" 0 "alice")
                        Devnet.genesis)))
    by (vm_compute; left; reflexivity).
  split; [exact H1|]. split; [exact H2|].
  exact (zero_amount_never_sent Devnet.node "alice"
           (Account.createAccount "bob" "Ldp" 0 "alice") Devnet.genesis
           "alice" (Devnet.bobTx None) H1 H2).
Defined.

Lemma accessKey_well_formed_witness :
  In ("alice", TxAddKey Scenario.payAddKey)
     (submitted
        (trace Devnet.node
           (Account.addAccessKey "alice" "Ldp" "contractX" "pay" "app" 10)
           Devnet.genesis))
  /\ AddKeyTransaction.accessKey Scenario.payAddKey = Some Devnet.payKey
  /\ (exists c, AccessKey.contractId Devnet.payKey = Some c
                /\ StringValue.value c <> "")
  /\ (forall v, AccessKey.methodName Devnet.payKey = Some v ->
                BytesValue.value v <> [])
  /\ (forall v, AccessKey.balanceOwner Devnet.payKey = Some v ->
                StringValue.value v <> "")
  /\ (forall a, AccessKey.amount Devnet.payKey = Some a -> 0 < a).
Proof.
  assert (H1 : In ("alice", TxAddKey Scenario.payAddKey)
                  (submitted
                     (trace Devnet.node
                        (Account.addAccessKey "alice" "Ldp" "contractX" "pay"
                           "app" 10)
                        Devnet.genesis)))
    by (vm_compute; left; reflexivity).
  assert (H2 : AddKeyTransaction.accessKey Scenario.payAddKey
               = Some Devnet.payKey) by reflexivity.
  split; [exact H1|]. split; [exact H2|].
  exact (accessKey_well_formed Devnet.node "alice" "Ldp" "contractX" "pay"
           "app" 10 Devnet.genesis "alice" Scenario.payAddKey Devnet.payKey
           H1 H2).
Defined.

Lemma payload_from_arguments_and_nonce_witness :
  Account.mutation "alice" (Account.removeAccessKey "alice" "Ldp")
  /\ nearClient.getNonce Devnet.node "alice" Devnet.genesis
     = (Devnet.genesis, inr 7)
  /\ nearClient.getNonce Devnet.congested "alice" Devnet.genesis
     = (Devnet.genesis, inr 7)
  /\ submitted
       (trace Devnet.node (Account.removeAccessKey "alice" "Ldp")
          Devnet.genesis)
     = submitted
         (trace Devnet.congested (Account.removeAccessKey "alice" "Ldp")
            Devnet.genesis).
Proof.
  assert (H1 : Account.mutation "alice"
                 (Account.removeAccessKey "alice" "Ldp")) by constructor.
  assert (H2 : nearClient.getNonce Devnet.node "alice" Devnet.genesis
               = (Devnet.genesis, inr 7)) by reflexivity.
  assert (H3 : nearClient.getNonce Devnet.congested "alice" Devnet.genesis
               = (Devnet.genesis, inr 7)) by reflexivity.
  split; [exact H1|]. split; [exact H2|]. split; [exact H3|].
  exact (payload_from_arguments_and_nonce Devnet.node Devnet.congested
           "alice" (Account.removeAccessKey "alice" "Ldp")
           Devnet.genesis Devnet.genesis Devnet.genesis Devnet.genesis 7
           H1 H2 H3).
Defined.

Lemma listed_key_can_be_removed_witness :
  outcome Devnet.node (Account.getAccountDetails "alice") Devnet.genesis
  = inr Devnet.details
  /\ In Scenario.contractApp (AccountDetails.authorizedApps Devnet.details)
  /\ exists value decoded key entry,
       In (EvDecode value (inr decoded))
          (trace Devnet.node (Account.getAccountDetails "alice")
             Devnet.genesis)
       /\ Object_get key decoded = Some entry
       /\ bs58.decode (AuthorizedApp.publicKey Scenario.contractApp)
          = Some entry.1
       /\ forall (owner : string) (w' w1 : gmap string Z) (n : Z),
            nearClient.getNonce Devnet.node owner w' = (w1, inr n) ->
            submitted
              (trace Devnet.node
                 (Account.removeAccessKey owner
                    (AuthorizedApp.publicKey Scenario.contractApp)) w')
            = [(owner,
                TxDeleteKey
                  {| DeleteKeyTransaction.nonce := n;
                     DeleteKeyTransaction.originator := owner;
                     DeleteKeyTransaction.curKey := entry.1 |})].
Proof.
  assert (H1 : outcome Devnet.node (Account.getAccountDetails "alice")
                 Devnet.genesis = inr Devnet.details) by reflexivity.
  assert (H2 : In Scenario.contractApp
                  (AccountDetails.authorizedApps Devnet.details))
    by (left; reflexivity).
  split; [exact H1|]. split; [exact H2|].
  exact (listed_key_can_be_removed Devnet.node "alice" Devnet.genesis
           Devnet.details Scenario.contractApp H1 H2).
Defined.

Lemma getAccountDetails_count_witness :
  outcome Devnet.node (Account.getAccountDetails "alice") Devnet.genesis
  = inr Devnet.details
  /\ exists value decoded,
       In (EvDecode value (inr decoded))
          (trace Devnet.node (Account.getAccountDetails "alice")
             Devnet.genesis)
       /\ length (AccountDetails.authorizedApps Devnet.details)
          = length decoded
       /\ (decoded = [] -> AccountDetails.authorizedApps Devnet.details = []).
Proof.
  assert (H1 : outcome Devnet.node (Account.getAccountDetails "alice")
                 Devnet.genesis = inr Devnet.details) by reflexivity.
  split; [exact H1|].
  exact (getAccountDetails_count Devnet.node "alice" Devnet.genesis
           Devnet.details H1).
Defined.

Lemma createAccountWithRandomKey_payload_witness :
  nearClient.fromRandomSeed Devnet.node Devnet.genesis
  = (Devnet.genesis, Devnet.keyWithRandomSeed)
  /\ nearClient.getNonce Devnet.node "alice" Devnet.genesis
     = (Devnet.genesis, inr 7)
  /\ submitted
       (trace Devnet.node (Account.createAccountWithRandomKey "bob" 10 "alice")
          Devnet.genesis)
     = [("alice",
         TxCreateAccount
           {| CreateAccountTransaction.nonce := 7;
              CreateAccountTransaction.originator := "alice";
              CreateAccountTransaction.newAccountId := "bob";
              CreateAccountTransaction.publicKey :=
                KeyPair.publicKey Devnet.keyWithRandomSeed;
              CreateAccountTransaction.amount :=
                if 10 =? 0 then None else Some 10 |})].
Proof.
  assert (H1 : nearClient.fromRandomSeed Devnet.node Devnet.genesis
               = (Devnet.genesis, Devnet.keyWithRandomSeed)) by reflexivity.
  assert (H2 : nearClient.getNonce Devnet.node "alice" Devnet.genesis
               = (Devnet.genesis, inr 7)) by reflexivity.
  split; [exact H1|]. split; [exact H2|].
  exact (createAccountWithRandomKey_payload Devnet.node "bob" 10 "alice"
           Devnet.genesis Devnet.genesis Devnet.genesis
           Devnet.keyWithRandomSeed 7 H1 H2).
Defined.

Lemma createAccountWithRandomKey_members_witness :
  nearClient.fromRandomSeed Devnet.node Devnet.genesis
  = (Devnet.genesis, Devnet.keyWithRandomSeed)
  /\ outcome Devnet.node
       (Account.createAccount "bob"
          (KeyPair.getPublicKey Devnet.keyWithRandomSeed) 10 "alice")
       Devnet.genesis = inr Devnet.completed
  /\ exists returned : JsObject,
       outcome Devnet.node (Account.createAccountWithRandomKey "bob" 10 "alice")
         Devnet.genesis = inr returned
       /\ dom returned = {["key"]} ∪ dom Devnet.completed
       /\ forall f, f <> "key" -> returned !! f = Devnet.completed !! f.
Proof.
  assert (H1 : nearClient.fromRandomSeed Devnet.node Devnet.genesis
               = (Devnet.genesis, Devnet.keyWithRandomSeed)) by reflexivity.
  assert (H2 : outcome Devnet.node
                 (Account.createAccount "bob"
                    (KeyPair.getPublicKey Devnet.keyWithRandomSeed) 10 "alice")
                 Devnet.genesis = inr Devnet.completed)
    by (vm_compute; reflexivity).
  split; [exact H1|]. split; [exact H2|].
  exact (createAccountWithRandomKey_members Devnet.node "bob" 10 "alice"
           Devnet.genesis Devnet.genesis Devnet.keyWithRandomSeed
           Devnet.completed H1 H2).
Defined.

Lemma nonce_fetched_then_used_witness :
  (keyed_mutation "alice" "Ldp"
     (Account.createAccount "bob" "Ldp" 1000 "alice")
   /\ exists tx,
        trace Devnet.node (Account.createAccount "bob" "Ldp" 1000 "alice")
          Devnet.genesis
        = [EvGetNonce "alice" (inr 7);
           EvSubmit "alice" tx
             (nearClient.signAndSubmitTransaction Devnet.node "alice" tx
                Devnet.genesis).2]
        /\ tx_nonce tx = 7)
  /\ (keyed_mutation "alice" "Ldp"
        (Account.addAccessKey "alice" "Ldp" "contractX" "" "" 10)
      /\ exists tx,
           trace Devnet.node
             (Account.addAccessKey "alice" "Ldp" "contractX" "" "" 10)
             Devnet.genesis
           = [EvGetNonce "alice" (inr 7);
              EvSubmit "alice" tx
                (nearClient.signAndSubmitTransaction Devnet.node "alice" tx
                   Devnet.genesis).2]
           /\ tx_nonce tx = 7)
  /\ (keyed_mutation "alice" "Ldp" (Account.removeAccessKey "alice" "Ldp")
      /\ exists tx,
           trace Devnet.node (Account.removeAccessKey "alice" "Ldp")
             Devnet.genesis
           = [EvGetNonce "alice" (inr 7);
              EvSubmit "alice" tx
                (nearClient.signAndSubmitTransaction Devnet.node "alice" tx
                   Devnet.genesis).2]
           /\ tx_nonce tx = 7).
Proof.
  assert (Hn : nearClient.getNonce Devnet.node "alice" Devnet.genesis
               = (Devnet.genesis, inr 7)) by reflexivity.
  assert (Hk : bs58.decode "Ldp" = Some [x01; x02; x03]) by reflexivity.
  assert (H1 : keyed_mutation "alice" "Ldp"
                 (Account.createAccount "bob" "Ldp" 1000 "alice"))
    by constructor.
  assert (H2 : keyed_mutation "alice" "Ldp"
                 (Account.addAccessKey "alice" "Ldp" "contractX" "" "" 10))
    by constructor.
  assert (H3 : keyed_mutation "alice" "Ldp"
                 (Account.removeAccessKey "alice" "Ldp")) by constructor.
  split; [|split].
  - split; [exact H1|].
    destruct (nonce_fetched_then_used Devnet.node "alice" "Ldp" _
                Devnet.genesis H1) as (rest & Ht & Hsub & _).
    destruct (Hsub 7 Devnet.genesis [x01; x02; x03] Hn Hk)
      as (tx & Hrest & Hnonce).
    exists tx. split; [|exact Hnonce]. rewrite Ht, Hrest, Hn. reflexivity.
  - split; [exact H2|].
    destruct (nonce_fetched_then_used Devnet.node "alice" "Ldp" _
                Devnet.genesis H2) as (rest & Ht & Hsub & _).
    destruct (Hsub 7 Devnet.genesis [x01; x02; x03] Hn Hk)
      as (tx & Hrest & Hnonce).
    exists tx. split; [|exact Hnonce]. rewrite Ht, Hrest, Hn. reflexivity.
  - split; [exact H3|].
    destruct (nonce_fetched_then_used Devnet.node "alice" "Ldp" _
                Devnet.genesis H3) as (rest & Ht & Hsub & _).
    destruct (Hsub 7 Devnet.genesis [x01; x02; x03] Hn Hk)
      as (tx & Hrest & Hnonce).
    exists tx. split; [|exact Hnonce]. rewrite Ht, Hrest, Hn. reflexivity.
Defined.

Lemma errors_propagate_witness :
  (Account.operation (Account.removeAccessKey "alice" "Ldp")
   /\ In (EvSubmit "alice"
            (TxDeleteKey
               (DeleteKeyTransaction.create 7 "alice" [x01; x02; x03]))
            (inl "request timed out"))
         (trace Devnet.congested (Account.removeAccessKey "alice" "Ldp")
            Devnet.genesis)
   /\ outcome Devnet.congested (Account.removeAccessKey "alice" "Ldp")
        Devnet.genesis
      = inl (Raised "request timed out"))
  /\ (exists tx,
        tx_nonce tx = 7
        /\ run Devnet.congested (Account.createAccount "bob" "Ldp" 0 "alice")
             Devnet.genesis
           = ([EvGetNonce "alice" (inr 7);
               EvSubmit "alice" tx (inl "request timed out")],
              Devnet.genesis, inl (Raised "request timed out")))
  /\ run Devnet.node (Account.addAccessKey "carol" "Ldp" "" "" "" 0)
       Devnet.genesis
     = ([EvGetNonce "carol" (inl "account does not exist")], Devnet.genesis,
        inl (Raised "account does not exist"))
  /\ run Devnet.node (Account.viewAccount "carol") Devnet.genesis
     = ([EvViewAccount "carol" (inl "account does not exist")],
        Devnet.genesis, inl (Raised "account does not exist")).
Proof.
  destruct (errors_propagate Devnet.congested) as (Hany & Hmut & _).
  destruct (errors_propagate Devnet.node) as (_ & Hmut' & Hview & _).
  pose (ev := EvSubmit (E:=string) "alice"
                (TxDeleteKey
                   (DeleteKeyTransaction.create 7 "alice" [x01; x02; x03]))
                (inl "request timed out")).
  assert (H1 : Account.operation (Account.removeAccessKey "alice" "Ldp"))
    by constructor.
  assert (H2 : In ev
                  (trace Devnet.congested
                     (Account.removeAccessKey "alice" "Ldp") Devnet.genesis))
    by (vm_compute; right; left; reflexivity).
  assert (H3 : failure ev = Some "request timed out") by reflexivity.
  split; [|split; [|split]].
  - split; [exact H1|]. split; [exact H2|].
    exact (proj1 (Hany _ _ Devnet.genesis ev "request timed out" H1 H2 H3)).
  - destruct (Hmut "alice" "Ldp"
                (Account.createAccount "bob" "Ldp" 0 "alice") Devnet.genesis
                (keyed_createAccount "bob" "Ldp" 0 "alice")) as [_ Hsub].
    destruct (Hsub Devnet.genesis 7 [x01; x02; x03] eq_refl eq_refl)
      as (tx & Hn & _ & _ & Hrun).
    exists tx. split; [exact Hn|].
    exact (Hrun Devnet.genesis "request timed out" eq_refl).
  - destruct (Hmut' "carol" "Ldp"
                (Account.addAccessKey "carol" "Ldp" "" "" "" 0)
                Devnet.genesis
                (keyed_addAccessKey "carol" "Ldp" "" "" "" 0)) as [Hfetch _].
    exact (Hfetch Devnet.genesis "account does not exist" eq_refl).
  - exact (Hview "carol" Devnet.genesis Devnet.genesis
             "account does not exist" eq_refl).
Defined.
